(** * Agent session manager of Empire (lib/common/agents.py)

    A shallow embedding of the parts of [lib/common/agents.py] that handle
    file downloads, the agent table and its database mirror, task queueing,
    the staging handshake and inbound data dispatch.

    Python [bytes] and [str] values are both modelled as [string]: one
    [ascii] character per byte. *)

From Stdlib Require Import ZArith QArith Qround String Ascii List Bool Lia DecimalString.
Import ListNotations.
Open Scope string_scope.
Set Warnings "-abstract-large-number".

(** ** Python string and bytes helpers *)
Module Py.

(** [s.split(sep)] for a one-character separator. *)
Fixpoint split (sep : ascii) (s : string) : list string :=
  match s with
  | EmptyString => [""]
  | String c rest =>
      let r := split sep rest in
      if Ascii.eqb c sep then "" :: r
      else match r with
           | [] => [String c ""]
           | h :: t => String c h :: t
           end
  end.

(** [sep.join(l)]. *)
Definition join (sep : string) (l : list string) : string := String.concat sep l.

(** [s.startswith(p)]. *)
Definition startswith (s p : string) : bool := String.prefix p s.

(** [sub in s] for strings. *)
Fixpoint contains (sub s : string) : bool :=
  String.prefix sub s ||
  match s with
  | EmptyString => false
  | String _ r => contains sub r
  end.

(** [s.lower()] on ASCII. *)
Definition lower_char (c : ascii) : ascii :=
  let n := nat_of_ascii c in
  if (65 <=? n)%nat && (n <=? 90)%nat then ascii_of_nat (n + 32) else c.

Fixpoint lower (s : string) : string :=
  match s with
  | EmptyString => EmptyString
  | String c r => String (lower_char c) (lower r)
  end.

(** ASCII whitespace as CPython's [Py_ISSPACE] sees it. *)
Definition is_space (c : ascii) : bool :=
  let n := nat_of_ascii c in
  (n =? 32)%nat || (n =? 9)%nat || (n =? 10)%nat || (n =? 11)%nat
  || (n =? 12)%nat || (n =? 13)%nat.

Definition is_digit (c : ascii) : bool :=
  let n := nat_of_ascii c in (48 <=? n)%nat && (n <=? 57)%nat.

Definition digit_val (c : ascii) : Z := Z.of_nat (nat_of_ascii c - 48).

Fixpoint lstrip (s : string) : string :=
  match s with
  | String c r => if is_space c then lstrip r else s
  | EmptyString => EmptyString
  end.

Fixpoint all_space (s : string) : bool :=
  match s with
  | String c r => is_space c && all_space r
  | EmptyString => true
  end.

(** The digits of a base-10 literal after its first digit: a digit, or one
    underscore followed by a digit, repeatedly.  Returns the value and the
    unread rest. *)
Fixpoint digits (acc : Z) (s : string) : Z * string :=
  match s with
  | String c rest =>
      if is_digit c then digits (acc * 10 + digit_val c) rest
      else if Ascii.eqb c "_"%char then
        match rest with
        | String c2 rest2 =>
            if is_digit c2 then digits (acc * 10 + digit_val c2) rest2
            else (acc, s)
        | EmptyString => (acc, s)
        end
      else (acc, s)
  | EmptyString => (acc, EmptyString)
  end.

(** [int(b)] for a [bytes] value in base 10 (CPython's
    [PyLong_FromString]): surrounding whitespace, an optional sign, digits
    with single underscores between them.  [None] is the [ValueError]. *)
Definition int (s : string) : option Z :=
  let s1 := lstrip s in
  let '(sign, s2) :=
    match s1 with
    | String c r =>
        if Ascii.eqb c "+"%char then (1%Z, r)
        else if Ascii.eqb c "-"%char then ((-1)%Z, r)
        else (1%Z, s1)
    | EmptyString => (1%Z, s1)
    end in
  match s2 with
  | String c r =>
      if is_digit c then
        let '(v, rest) := digits (digit_val c) r in
        if all_space rest then Some (sign * v)%Z else None
      else None
  | EmptyString => None
  end.

(** [round(x, 2)], on exact rationals (round half to even). *)
Definition round_half_even (q : Q) : Z :=
  let f := Qfloor q in
  let r := q - inject_Z f in
  if negb (Qle_bool r (1 # 2)) then (f + 1)%Z
  else if Qeq_bool r (1 # 2) then (if Z.even f then f else (f + 1)%Z)
  else f.

Definition round2 (q : Q) : Q := Qmake (round_half_even (q * 100)) 100.

(** ["%s" % n] for an integer. *)
Definition str_of_Z (z : Z) : string := NilEmpty.string_of_int (Z.to_int z).

(** [s.strip() != '']. *)
Definition strip_nonempty (s : string) : bool := negb (all_space s).

(** Strict UTF-8 well-formedness, as [bytes.decode('utf-8')] checks it. *)
Definition cont (b : nat) : bool := (128 <=? b)%nat && (b <=? 191)%nat.
Definition btw (lo b hi : nat) : bool := (lo <=? b)%nat && (b <=? hi)%nat.

Fixpoint utf8_ok (l : list nat) : bool :=
  match l with
  | [] => true
  | b :: r =>
      if (b <? 128)%nat then utf8_ok r
      else if btw 194 b 223 then
        match r with c :: r' => cont c && utf8_ok r' | _ => false end
      else if btw 224 b 239 then
        match r with
        | c1 :: c2 :: r' =>
            (if (b =? 224)%nat then btw 160 c1 191
             else if (b =? 237)%nat then btw 128 c1 159 else cont c1)
            && cont c2 && utf8_ok r'
        | _ => false
        end
      else if btw 240 b 244 then
        match r with
        | c1 :: c2 :: c3 :: r' =>
            (if (b =? 240)%nat then btw 144 c1 191
             else if (b =? 244)%nat then btw 128 c1 143 else cont c1)
            && cont c2 && cont c3 && utf8_ok r'
        | _ => false
        end
      else false
  end.

(** [str(b, 'utf-8')]: the text keeps its UTF-8 bytes; [None] is the
    [UnicodeDecodeError]. *)
Definition utf8_decode (s : string) : option string :=
  if utf8_ok (map nat_of_ascii (list_ascii_of_string s)) then Some s else None.

End Py.

(** ** [posixpath] *)
Module PosixPath.

Definition norm_step (initial : nat) (acc : list string) (comp : string)
  : list string :=
  if String.eqb comp "" || String.eqb comp "." then acc
  else if negb (String.eqb comp "..")
          || ((initial =? 0)%nat && match acc with [] => true | _ => false end)
          || match acc with h :: _ => String.eqb h ".." | [] => false end
  then comp :: acc
  else match acc with [] => [] | _ :: t => t end.

Fixpoint slashes (n : nat) : string :=
  match n with O => "" | S k => String "/" (slashes k) end.

(** [os.path.normpath]: purely lexical, symlinks are not consulted. *)
Definition normpath (p : string) : string :=
  if String.eqb p "" then "." else
  let initial :=
    if Py.startswith p "/" then
      (if Py.startswith p "//" && negb (Py.startswith p "///") then 2%nat else 1%nat)
    else 0%nat in
  let comps := fold_left (norm_step initial) (Py.split "/" p) [] in
  let res := slashes initial ++ Py.join "/" (rev comps) in
  if String.eqb res "" then "." else res.

Definition isabs (p : string) : bool := Py.startswith p "/".

(** [os.path.join(a, b)] for two arguments. *)
Definition join (a b : string) : string :=
  if isabs b then b
  else if String.eqb a "" then b
  else if Py.startswith (String.string_of_list_ascii (rev (String.list_ascii_of_string a))) "/"
  then a ++ b else a ++ "/" ++ b.

(** [os.path.abspath], for the process working directory [cwd]. *)
Definition abspath (cwd p : string) : string :=
  normpath (if isabs p then p else join cwd p).

(** [os.path.basename]. *)
Definition basename (p : string) : string := last (Py.split "/" p) "".

End PosixPath.

(** ** Downloads: [Agents.save_file] *)
Module Files.

(** Events sent on the dispatcher by the file sink. *)
Inductive event :=
| EvSkywalker (sessionID path : string)   (** "attempted skywalker exploit" *)
| EvCrcFailed (sessionID : string)        (** failed crc32 check *)
| EvPartSaved (filename sessionID : string) (percent : Q).

(** The file system as a map from the normalised absolute path of a file to
    its bytes, and the events sent so far. *)
Record fs := mk_fs { files : list (string * string); events : list event }.

Fixpoint file_get (k : string) (l : list (string * string)) : option string :=
  match l with
  | [] => None
  | (k', v) :: t => if String.eqb k k' then Some v else file_get k t
  end.

Fixpoint file_put (k v : string) (l : list (string * string))
  : list (string * string) :=
  match l with
  | [] => [(k, v)]
  | (k', v') :: t => if String.eqb k k' then (k, v) :: t else (k', v') :: file_put k v t
  end.

(** How a call ends: normally, or with a Python exception propagating. *)
Inductive outcome := Returned | Raised (exn : string).

(** [round(int(os.path.getsize(f))/int(filesize)*100, 2)], with exact
    rationals in place of Python's floats. *)
Definition percent_of (on_disk filesize : Z) : Q :=
  Py.round2 (inject_Z on_disk / inject_Z filesize * 100).

Section SaveFile.

(** The process working directory, used by [os.path.abspath]. *)
Variable cwd : string.
(** [decompress.decompress().dec_data]: the decompressed data and the
    result of its crc32 check. *)
Variable dec_data : string -> string * bool.

(** [save_file(sessionID, path, data, filesize, append)], with the agent name
    already resolved to its session id and [lang] the agent's language. *)
Definition save_file (installPath sessionID lang path data : string)
    (filesize : Z) (append : bool) (s : fs) : fs * outcome :=
  let parts := Py.split "\"%char path in
  let save_path := installPath ++ "downloads/" ++ sessionID ++ "/"
                   ++ Py.join "/" (removelast parts) in
  let filename := PosixPath.basename (last parts "") in
  let safePath := PosixPath.abspath cwd (installPath ++ "downloads/") in
  let target := PosixPath.abspath cwd (save_path ++ "/" ++ filename) in
  if negb (Py.startswith target safePath) then
    (mk_fs (files s) (events s ++ [EvSkywalker sessionID path])%list, Returned)
  else
    let '(data', evs) :=
      if Py.contains "python" lang then
        let '(d, crc_ok) := dec_data data in
        (d, if crc_ok then [] else [EvCrcFailed sessionID])
      else (data, []) in
    let old :=
      if append then match file_get target (files s) with
                     | Some c => c | None => "" end
      else "" in
    let content := old ++ data' in
    let files' := file_put target content (files s) in
    if (filesize =? 0)%Z then
      (mk_fs files' (events s ++ evs)%list, Raised "ZeroDivisionError")
    else
      let percent := percent_of (Z.of_nat (String.length content)) filesize in
      (mk_fs files' (events s ++ evs ++ [EvPartSaved filename sessionID percent])%list,
       Returned).

End SaveFile.

End Files.

(** ** The agent table, its database mirror and the task queue *)
Module Store.

(** A pending task as kept in the [taskings] column: [[taskName, task, pk]]. *)
Record task := mk_task { t_name : string; t_data : string; t_id : Z }.

(** The system information written by [update_agent_sysinfo_db]. *)
Record sysinfo := mk_sysinfo {
  si_internal_ip : string; si_username : string; si_hostname : string;
  si_os_details : string; si_high_integrity : Z; si_process_name : string;
  si_process_id : string; si_language_version : string; si_language : string }.

(** A row of the [agents] table (the columns the modelled code touches).
    [a_taskings] is the JSON column: [None] for NULL or [''], [Some l] for
    [json.dumps(l)]. *)
Record agent_row := mk_agent {
  a_session_id : string; a_name : string; a_session_key : string;
  a_nonce : string; a_listener : string; a_language : string;
  a_sysinfo : option sysinfo; a_taskings : option (list task) }.

(** The process state: [self.agents] (session id to session key), the
    rows of [agents] as the ORM session sees them, [taskings] (id, agent,
    data) and [results] (id, agent, data), the values of the [taskings]
    column changed through the ORM session and not yet committed, the
    messages sent on the dispatcher, and the rows removed by a [DELETE] run
    on the session's connection and not yet committed (the [agents] table
    itself still holds them).  One ORM session is modelled: the calls of one
    listener thread.  The raw connection's accesses are modelled on the
    session's view of [agents]. *)
Record state := mk_state {
  cache : list (string * string);
  db_agents : list agent_row;
  db_taskings : list (Z * string * string);
  db_results : list (Z * string * option string);
  pending : list (string * option (list task));
  log : list string;
  orm_deleted : list agent_row }.

(** Python results: a value or a propagating exception. *)
Inductive pyres (A : Type) := PyVal (a : A) | PyExc (exn : string).
Arguments PyVal {A} a.
Arguments PyExc {A} exn.

Definition set_cache st c := mk_state c (db_agents st) (db_taskings st) (db_results st) (pending st) (log st) (orm_deleted st).
Definition set_agents st a := mk_state (cache st) a (db_taskings st) (db_results st) (pending st) (log st) (orm_deleted st).
Definition set_pending st p := mk_state (cache st) (db_agents st) (db_taskings st) (db_results st) p (log st) (orm_deleted st).
Definition emit st m := mk_state (cache st) (db_agents st) (db_taskings st) (db_results st) (pending st) (log st ++ [m])%list (orm_deleted st).
Definition set_deleted st d := mk_state (cache st) (db_agents st) (db_taskings st) (db_results st) (pending st) (log st) d.

(** The rows the [agents] table holds: the session's view and the rows whose
    deletion is not committed. *)
Definition committed_agents (st : state) : list agent_row := (db_agents st ++ orm_deleted st)%list.

Definition in_cache (sid : string) (st : state) : bool :=
  existsb (fun p => String.eqb (fst p) sid) (cache st).

Definition cache_get (sid : string) (st : state) : option string :=
  option_map snd (find (fun p => String.eqb (fst p) sid) (cache st)).

(** [self.agents.pop(sid, None)]. *)
Definition cache_pop (sid : string) (c : list (string * string)) :=
  filter (fun p => negb (String.eqb (fst p) sid)) c.

(** [self.agents[sid] = {'sessionKey': key, ...}]. *)
Definition cache_set (sid key : string) (c : list (string * string)) :=
  (cache_pop sid c ++ [(sid, key)])%list.

Definition row_of (sid : string) (st : state) : option agent_row :=
  find (fun r => String.eqb (a_session_id r) sid) (db_agents st).

(** [get_agent_id_db(name)]: the session id of the first row named [name]. *)
Definition get_agent_id_db (st : state) (name : string) : option string :=
  option_map a_session_id (find (fun r => String.eqb (a_name r) name) (db_agents st)).

(** Resolve a name to a session id as [if nameid: sessionID = nameid]
    (an empty session id is falsy). *)
Definition resolve (st : state) (sid : string) : string :=
  match get_agent_id_db st sid with
  | Some x => if String.eqb x "" then sid else x
  | None => sid
  end.

(** A [%] of a [LIKE] pattern: [m] matches some suffix of [s]. *)
Fixpoint like_star (m : string -> bool) (s : string) : bool :=
  m s || match s with String _ s' => like_star m s' | EmptyString => false end.

(** SQLite's [LIKE] without ESCAPE: [%] matches any sequence, [_] any one
    character, and ASCII letters match regardless of case. *)
Fixpoint like (pat : string) : string -> bool :=
  match pat with
  | EmptyString => fun s => match s with EmptyString => true | _ => false end
  | String c p' =>
      if Ascii.eqb c "%"%char then like_star (like p')
      else fun s =>
        match s with
        | String d s' =>
            (Ascii.eqb c "_"%char || Ascii.eqb (Py.lower_char c) (Py.lower_char d))
            && like p' s'
        | EmptyString => false
        end
  end.

(** [remove_agent_db(sessionID)]: the [DELETE] runs on
    [Session().connection()], inside the session's transaction, and nothing
    commits it. *)
Definition remove_agent_db (st : state) (sessionID : string) : state :=
  let '(sid, c) :=
    if String.eqb sessionID "%" || String.eqb (Py.lower sessionID) "all"
    then ("%", [])
    else let sid := resolve st sessionID in (sid, cache_pop sid (cache st)) in
  (* DELETE FROM agents WHERE session_id LIKE ? *)
  let rows := filter (fun r => negb (like sid (a_session_id r))) (db_agents st) in
  let gone := filter (fun r => like sid (a_session_id r)) (db_agents st) in
  emit (set_deleted (set_agents (set_cache st c) rows) (orm_deleted st ++ gone)%list)
       ("[*] Agent " ++ sid ++ " deleted").

(** [Session().commit()]: the values changed through the ORM reach the
    [agents] table, and the session's deletions become final. *)
Definition commit (st : state) : state :=
  let apply r :=
    match find (fun p => String.eqb (fst p) (a_session_id r)) (pending st) with
    | Some (_, v) => mk_agent (a_session_id r) (a_name r) (a_session_key r)
                      (a_nonce r) (a_listener r) (a_language r) (a_sysinfo r) v
    | None => r
    end in
  set_deleted (set_pending (set_agents st (map apply (db_agents st))) []) [].

(** The [taskings] column as the ORM session sees it. *)
Definition orm_taskings (st : state) (r : agent_row) : option (list task) :=
  match find (fun p => String.eqb (fst p) (a_session_id r)) (pending st) with
  | Some (_, v) => v
  | None => a_taskings r
  end.

(** A process restart: uncommitted ORM changes are lost, so the rows whose
    deletion was not committed are back, and [Agents.__init__] rebuilds
    [self.agents] from the [agents] rows.  (The order of the restored rows
    among the others is not modelled.) *)
Definition restart (st : state) : state :=
  mk_state (map (fun r => (a_session_id r, a_session_key r)) (committed_agents st))
           (committed_agents st) (db_taskings st) (db_results st) [] [] [].

(** *** Task queue *)

(** [SELECT max(id) ...]: [None] on no rows. *)
Definition sql_max (l : list Z) : option Z :=
  match l with [] => None | x :: t => Some (fold_left Z.max t x) end.

(** The ids of the [taskings] rows of agent [sid] ([agent=?]). *)
Definition ids_for (sid : string) (st : state) : list Z :=
  map (fun r => fst (fst r)) (filter (fun r => String.eqb (snd (fst r)) sid) (db_taskings st)).

(** [pk = (max(id) or 0) + 1) % 65536]. *)
Definition next_task_id (ids : list Z) : Z :=
  let pk := match sql_max ids with None => 0%Z | Some m => m end in
  ((pk + 1) mod 65536)%Z.

Definition set_row_taskings (sid : string) (v : option (list task)) (rows : list agent_row) :=
  map (fun r => if String.eqb (a_session_id r) sid
                then mk_agent (a_session_id r) (a_name r) (a_session_key r) (a_nonce r)
                       (a_listener r) (a_language r) (a_sysinfo r) v
                else r) rows.

(** [task[:100]]. *)
Definition prefix100 (s : string) : string := substring 0 100 s.

(** [add_agent_task_db(sessionID, taskName, task)]: the raw connection runs
    in autocommit mode, so its writes are committed at once.  Returns the
    task id, or [None] when the method returns [None]. *)
Definition add_agent_task_db (st : state) (sessionID taskName task : string)
  : state * option Z :=
  let sid := resolve st sessionID in
  if negb (in_cache sid st) then (st, None)
  else if String.eqb sid "" then (st, None)
  else
    let st := emit st ("[*] Tasked " ++ sid ++ " to run " ++ taskName) in
    let agent_tasks :=
      match row_of sid st with
      | Some r => match a_taskings r with Some l => l | None => [] end
      | None => []
      end in
    let pk := next_task_id (ids_for sid st) in
    let st := mk_state (cache st)
                (set_row_taskings sid (Some (agent_tasks ++ [mk_task taskName task pk])%list)
                   (db_agents st))
                (db_taskings st ++ [(pk, sid, prefix100 task)])%list
                (db_results st ++ [(pk, sid, None)])%list
                (pending st) (log st) (orm_deleted st) in
    (emit st ("[*] Agent " ++ sid ++ " tasked with task ID " ++ Py.str_of_Z pk), Some pk).

(** [get_agent_tasks_db(session_id)]: the column is cleared through the ORM
    and [Session().commit] is only referenced, not called. *)
Definition get_agent_tasks_db (st : state) (session_id : string)
  : state * pyres (list task) :=
  let sid := resolve st session_id in
  if negb (in_cache sid st) then (st, PyVal [])
  else match row_of sid st with
       | None => (st, PyExc "AttributeError")
       | Some r =>
           match orm_taskings st r with
           | Some tasks =>
               (set_pending st (filter (fun p => negb (String.eqb (fst p) sid)) (pending st)
                                ++ [(sid, None)])%list,
                PyVal tasks)
           | None => (st, PyVal [])
           end
       end.

(** Every row named [sid] is the agent [sid] itself. *)
Definition names_own (st : state) (sid : string) : Prop :=
  forall r, In r (db_agents st) -> a_name r = sid -> a_session_id r = sid.

End Store.

(** ** Staging: [Agents.add_agent] and [Agents.handle_agent_staging] *)
Module Staging.
Import Store.

Section Staging.

(** The cryptographic collaborators of [lib/common/encryption.py]. *)
Variable aes_decrypt_and_verify : string -> string -> option string.
Variable aes_encrypt_then_hmac : string -> string -> string.
Variable generate_aes_key : string.
(** [DiffieHellman()] followed by [genKey(clientPub)]: the derived key
    [serverPub.key] and the server's public value [serverPub.publicKey]. *)
Variable dh_key : Z -> string.
Variable dh_public : Z.
(** [helpers.random_string(16, charset=string.digits)]. *)
Variable new_nonce : string.
(** The RSA branch of STAGE1 for PowerShell agents, given the decrypted key. *)
Variable stage1_powershell : state -> string -> string -> state * pyres (option string).
(** [get_autoruns_db()]. *)
Variable autoruns : option (string * string).

(** Whether a row already holds session id [sid] or name [name]. *)
Definition taken (st : state) (sid name : string) : bool :=
  existsb (fun x => String.eqb (a_session_id x) sid || String.eqb (a_name x) name) (db_agents st).

(** Modelled from the spec: the [agents] table has primary key
    [session_id] and a unique [name] (lib/database/models.py is not part of
    the source), so adding a row that repeats either fails at commit. *)
Definition insert_agent (st : state) (r : agent_row) : state * pyres unit :=
  if taken st (a_session_id r) (a_name r) then (st, PyExc "IntegrityError")
  else (commit (set_agents st (db_agents st ++ [r])%list), PyVal tt).

(** [add_agent(sessionID, externalIP, ..., sessionKey, nonce, listener,
    language)]; the beaconing columns are not modelled. *)
Definition add_agent (st : state) (sessionID sessionKey nonce listener language : string)
  : state * pyres unit :=
  let key := if String.eqb sessionKey "" then generate_aes_key else sessionKey in
  match insert_agent st (mk_agent sessionID sessionID key nonce listener language None None) with
  | (st', PyExc e) => (st', PyExc e)
  | (st', PyVal _) =>
      let st' := emit st' ("[*] New agent " ++ sessionID ++ " checked in") in
      (set_cache st' (cache_set sessionID key (cache st')), PyVal tt)
  end.

Definition python_key_error (sid : string) : string :=
  "Error: Invalid Python key post format from " ++ sid.

(** STAGE1, language [python], once the key post is decrypted. *)
Definition stage1_python (st : state) (sessionID message stagingKey clientIP listenerName : string)
  : state * pyres (option string) :=
  let n := String.length message in
  if (n <? 1000)%nat || (2500 <? n)%nat then
    (emit st ("[!] Invalid Python key post format from " ++ sessionID),
     PyVal (Some (python_key_error sessionID)))
  else match Py.int message with
  | None =>
    (emit st ("[!] Invalid Python key post format from " ++ sessionID),
     PyVal (Some (python_key_error sessionID)))
  | Some clientPub =>
    let st := emit st ("[*] Agent " ++ sessionID ++ " from " ++ clientIP ++ " posted valid Python PUB key") in
    match add_agent st sessionID (dh_key clientPub) new_nonce listenerName "" with
    | (st', PyExc e) => (st', PyExc e)
    | (st', PyVal _) =>
        (st', PyVal (Some (aes_encrypt_then_hmac stagingKey
                             (new_nonce ++ Py.str_of_Z dh_public))))
    end
  end.

(** STAGE1: decrypt with the staging key, then branch on the language. *)
Definition stage1 (st : state) (sessionID language encData stagingKey clientIP listenerName : string)
  : state * pyres (option string) :=
  let st := emit st ("[*] Agent " ++ sessionID ++ " from " ++ clientIP ++ " posted public key") in
  match aes_decrypt_and_verify stagingKey encData with
  | None => (emit st ("[!] HMAC verification failed from '" ++ sessionID ++ "'"),
             PyVal (Some "ERROR: HMAC verification failed"))
  | Some message =>
      if String.eqb (Py.lower language) "powershell" then stage1_powershell st sessionID message
      else if String.eqb (Py.lower language) "python" then
        stage1_python st sessionID message stagingKey clientIP listenerName
      else (emit st ("[*] Agent " ++ sessionID ++ " from " ++ clientIP
                     ++ " using an invalid language specification: " ++ language),
            PyVal (Some ("ERROR: invalid language: " ++ language)))
  end.

(** [get_agent_nonce_db(sid)]. *)
Definition get_agent_nonce_db (st : state) (sid : string) : option string :=
  option_map a_nonce (row_of sid st).

(** [update_agent_sysinfo_db(...)]: writes the fields through the ORM and
    commits (the [listener] argument is not written). *)
Definition update_agent_sysinfo_db (st : state) (session_id : string) (si : sysinfo)
  : state * pyres unit :=
  let sid := resolve st session_id in
  match row_of sid st with
  | None => (st, PyExc "AttributeError")
  | Some _ =>
      let upd r := if String.eqb (a_session_id r) sid
                   then mk_agent (a_session_id r) (a_name r) (a_session_key r) (a_nonce r)
                          (a_listener r) (si_language si) (Some si) (a_taskings r)
                   else r in
      (commit (set_agents st (map upd (db_agents st))), PyVal tt)
  end.

(** [repr] of the [bytes] in the error message (printable bytes only). *)
Definition bytes_repr (m : string) : string := "b'" ++ m ++ "'".

(** Decode [parts[1]] to [parts[11]] with [str(_, 'utf-8')]. *)
Fixpoint decode_all (l : list string) : option (list string) :=
  match l with
  | [] => Some []
  | x :: t => match Py.utf8_decode x, decode_all t with
              | Some y, Some u => Some (y :: u)
              | _, _ => None
              end
  end.

(** The sysinfo of the decoded fields [parts[1:12]]: [listener, domain,
    user, host, internal_ip, os, high_integrity, proc_name, proc_id,
    language, language_version]; the user name is prefixed by the domain when
    the domain is not blank, and [high_integrity] is 1 iff it is ["True"]. *)
Definition sysinfo_of (fields : list string) : option sysinfo :=
  match fields with
  | [_listener; domainname; username; hostname; internal_ip; os_details;
     high_integrity; process_name; process_id; language; language_version] =>
      let username := if negb (String.eqb domainname "") && Py.strip_nonempty domainname
                      then domainname ++ "\" ++ username else username in
      let hi := if String.eqb high_integrity "True" then 1%Z else 0%Z in
      Some (mk_sysinfo internal_ip username hostname os_details hi process_name
              process_id language_version language)
  | _ => None
  end.

(** STAGE2: nonce and sysinfo check-in under the session key. *)
Definition stage2 (st : state) (sessionID encData clientIP listenerName : string)
  : state * pyres (option string) :=
  match cache_get sessionID st with
  | None => (st, PyExc "KeyError")
  | Some sessionKey =>
  let fail (st : state) (e : string) :=
    let st := emit st ("[!] Exception in agents.handle_agent_staging() for " ++ sessionID ++ " : " ++ e) in
    (remove_agent_db st sessionID,
     PyVal (Some ("Error: Exception in agents.handle_agent_staging() for " ++ sessionID ++ " : " ++ e))) in
  match aes_decrypt_and_verify sessionKey encData with
  | None => fail st "HMAC verification failed"
  | Some message =>
  let parts := Py.split "|"%char message in
  if (length parts <? 12)%nat then
    let st := emit st ("[!] Agent " ++ sessionID ++ " posted invalid sysinfo checkin format: " ++ bytes_repr message) in
    (remove_agent_db st sessionID,
     PyVal (Some ("ERROR: Agent " ++ sessionID ++ " posted invalid sysinfo checkin format: " ++ bytes_repr message)))
  else
  match Py.int (nth 0 parts "") with
  | None => fail st "invalid literal for int() with base 10"
  | Some got =>
  match get_agent_nonce_db st sessionID with
  | None => fail st "int() argument must be a string, a bytes-like object or a number, not 'NoneType'"
  | Some nonce =>
  match Py.int nonce with
  | None => fail st "invalid literal for int() with base 10"
  | Some n =>
  if negb (got =? n + 1)%Z then
    let st := emit st ("[!] Invalid nonce returned from " ++ sessionID) in
    (remove_agent_db st sessionID,
     PyVal (Some ("ERROR: Invalid nonce returned from " ++ sessionID)))
  else
  let st := emit st ("[!] Nonce verified: agent " ++ sessionID ++ " posted valid sysinfo checkin format: " ++ bytes_repr message) in
  match match decode_all (firstn 11 (skipn 1 parts)) with
        | Some fields => sysinfo_of fields
        | None => None
        end with
  | Some si =>
      match update_agent_sysinfo_db st sessionID si with
      | (st, PyExc e) => (st, PyExc e)
      | (st, PyVal _) =>
          let st := emit st ("[+] Initial agent " ++ sessionID ++ " from " ++ clientIP ++ " now active (Slack)") in
          let st := match autoruns with
                    | Some (cmd, data) =>
                        if negb (String.eqb cmd "") && negb (String.eqb data "")
                        then fst (add_agent_task_db st sessionID cmd data) else st
                    | None => st
                    end in
          (st, PyVal (Some ("STAGE2: " ++ sessionID)))
      end
  | _ => fail st "'utf-8' codec can't decode"
  end
  end end end end end.

End Staging.

End Staging.

(** ** Inbound data: [handle_agent_data] and [handle_agent_response] *)
Module Inbound.
Import Store.

(** A decoded routing frame: [sessionID, (language, meta, additional, encData)]. *)
Record frame := mk_frame {
  f_session_id : string; f_language : string; f_meta : string;
  f_additional : string; f_enc_data : string }.

(** A result packet: [(responseName, totalPacket, packetNum, taskID, length, data)]. *)
Record result_packet := mk_result_packet {
  r_name : string; r_total : Z; r_num : Z; r_task_id : Z; r_length : Z; r_data : string }.

Section Inbound.

Variable aes_decrypt_and_verify : string -> string -> option string.
(** [packets.parse_routing_packet(stagingKey, data)]: the frames, or a
    falsy result. *)
Variable parse_routing_packet : string -> string -> option (list frame).
(** [packets.parse_result_packets(data)]: the list of packets, or an
    exception. *)
Variable parse_result_packets : string -> option (list result_packet).
(** The three per-frame handlers called by [handle_agent_data]. *)
Variable handle_agent_staging : state -> frame -> state * pyres (option string).
Variable handle_agent_request : state -> frame -> state * pyres (option string).
(** The per-opcode part of [process_agent_packet] that follows the results
    update: the new state, and the exception it raises if any. *)
Variable process_opcode : state -> string -> string -> Z -> string -> state * option string.

(** [update_agent_lastseen_db(sid)]: the timestamp is not modelled; the
    row is looked up by id or name and the ORM session is committed. *)
Definition update_agent_lastseen_db (st : state) (sid : string) : state * pyres unit :=
  if existsb (fun r => String.eqb (a_session_id r) sid || String.eqb (a_name r) sid) (db_agents st)
  then (commit st, PyVal tt) else (st, PyExc "AttributeError").

Definition file_opcodes : list string := ["TASK_DOWNLOAD"; "TASK_CMD_JOB_SAVE"; "TASK_CMD_WAIT_SAVE"].

Definition set_results st r := mk_state (cache st) (db_agents st) (db_taskings st) r (pending st) (log st) (orm_deleted st).

(** [UPDATE results SET data=? WHERE id=? AND agent=?]. *)
Definition update_results (tid : Z) (sid data : string) (rs : list (Z * string * option string)) :=
  map (fun r => if (fst (fst r) =? tid)%Z && String.eqb (snd (fst r)) sid
                then (fst r, Some data) else r) rs.

(** [UPDATE results SET data=data||? WHERE id=? AND agent=?]. *)
Definition append_results (tid : Z) (sid data : string) (rs : list (Z * string * option string)) :=
  map (fun r => if (fst (fst r) =? tid)%Z && String.eqb (snd (fst r)) sid
                then (fst r, option_map (fun d => d ++ data) (snd r)) else r) rs.

(** [data LIKE "function Get-Keystrokes%"] on a keylogger task. *)
Definition keylog_task (st : state) (sid : string) (tid : Z) : bool :=
  existsb (fun r => (fst (fst r) =? tid)%Z && String.eqb (snd (fst r)) sid
                    && like "function Get-Keystrokes%" (snd r)) (db_taskings st).

(** [process_agent_packet(sessionID, responseName, taskID, data)]: the
    results row of the task is written under the lock, then the opcode
    handler runs. *)
Definition process_agent_packet (st : state) (sessionID responseName : string) (taskID : Z)
    (data : string) : state * option string :=
  let sid := resolve st sessionID in
  let st := emit st ("[*] Agent " ++ sid ++ " got results") in
  let st :=
    if negb (taskID =? 0)%Z && negb (existsb (String.eqb responseName) file_opcodes) then
      let st := set_results st (update_results taskID sid data (db_results st)) in
      if keylog_task st sid taskID
      then set_results st (append_results taskID sid data (db_results st)) else st
    else st in
  process_opcode st sid responseName taskID data.

(** The loop over the result packets: stops at the first exception. *)
Fixpoint dispatch_all (st : state) (sid : string) (ps : list result_packet)
  : state * option string :=
  match ps with
  | [] => (st, None)
  | p :: rest =>
      match process_agent_packet st sid (r_name p) (r_task_id p) (r_data p) with
      | (st', None) => dispatch_all st' sid rest
      | (st', Some e) => (st', Some e)
      end
  end.

(** [handle_agent_response(sessionID, encData, update_lastseen)]. *)
Definition handle_agent_response (st : state) (sessionID encData : string) (update_lastseen : bool)
  : state * pyres (option string) :=
  match cache_get sessionID st with
  | None => (emit st ("[!] handle_agent_response(): sessionID " ++ sessionID ++ " not in cache"),
             PyVal None)
  | Some sessionKey =>
    match (if update_lastseen then update_agent_lastseen_db st sessionID else (st, PyVal tt)) with
    | (st, PyExc e) => (st, PyExc e)
    | (st, PyVal _) =>
    let warn (st : state) (e : string) :=
      (emit st ("[!] Error processing result packet from " ++ sessionID ++ " : " ++ e), PyVal None) in
    match aes_decrypt_and_verify sessionKey encData with
    | None => warn st "HMAC verification failed"
    | Some packet =>
      match parse_result_packets packet with
      | None => warn st "invalid result packet"
      | Some responsePackets =>
        match dispatch_all st sessionID responsePackets with
        | (st', Some e) => warn st' e
        | (st', None) =>
            let st' := match responsePackets with
                       | [] => st'
                       | _ => emit st' ("[*] Agent " ++ sessionID ++ " returned results.")
                       end in
            (st', PyVal (Some "VALID"))
        end
      end
    end
    end
  end.

(** [handle_agent_data(stagingKey, routingPacket, listenerOptions, clientIP,
    update_lastseen)]: [None] for [None], otherwise the list of
    [(language, reply)] pairs. *)
Definition handle_agent_data (st : state) (stagingKey routingPacket : string) (update_lastseen : bool)
  : state * pyres (option (list (string * option string))) :=
  if (String.length routingPacket <? 20)%nat then
    (st, PyVal None)
  else
  match parse_routing_packet stagingKey routingPacket with
  | None | Some [] => (st, PyVal (Some [("", Some "ERROR: invalid routing packet")]))
  | Some frames =>
    let fix go (st : state) (fs : list frame) (acc : list (string * option string))
      : state * pyres (option (list (string * option string))) :=
      match fs with
      | [] => (st, PyVal (Some (rev acc)))
      | f :: rest =>
        let sid := f_session_id f in
        let meta := f_meta f in
        if String.eqb meta "STAGE0" || String.eqb meta "STAGE1" || String.eqb meta "STAGE2" then
          match handle_agent_staging st f with
          | (st', PyVal r) => go st' rest ((f_language f, r) :: acc)
          | (st', PyExc e) => (st', PyExc e)
          end
        else if negb (in_cache sid st) then
          go (emit st ("[!] handle_agent_data(): sessionID " ++ sid ++ " not present")) rest
             (("", Some ("ERROR: sessionID " ++ sid ++ " not in cache!")) :: acc)
        else if String.eqb meta "TASKING_REQUEST" then
          match handle_agent_request st f with
          | (st', PyVal r) => go st' rest ((f_language f, r) :: acc)
          | (st', PyExc e) => (st', PyExc e)
          end
        else if String.eqb meta "RESULT_POST" then
          match handle_agent_response st sid (f_enc_data f) update_lastseen with
          | (st', PyVal r) => go st' rest ((f_language f, r) :: acc)
          | (st', PyExc e) => (st', PyExc e)
          end
        else go (emit st ("[!] handle_agent_data(): sessionID " ++ sid
                          ++ " gave unhandled meta tag in routing packet: " ++ meta)) rest acc
      end in
    go st frames []
  end.

End Inbound.

(** The [TASK_SYSINFO] handler up to its length check: [data.decode('utf-8')]
    (an undecodable body raises), then a body of fewer than 12 fields is
    reported.  Well-formed sysinfo bodies and the other opcode handlers are
    left out of this instance. *)
Definition opcode_sysinfo_decode (st : state) (sid name : string) (tid : Z) (data : string)
  : state * option string :=
  if String.eqb name "TASK_SYSINFO" then
    match Py.utf8_decode data with
    | None => (st, Some "UnicodeDecodeError")
    | Some d =>
        if (length (Py.split "|"%char d) <? 12)%nat
        then (emit st ("[!] Invalid sysinfo response from " ++ sid), None)
        else (st, None)
    end
  else (st, None).

End Inbound.

(** ** Further methods of [Agents] *)

(** [is_ip_allowed(ip_address)] over [self.ipWhiteList] and
    [self.ipBlackList]: an empty list (or [None]) is falsy. *)
Module Access.

Definition is_ip_allowed (ipWhiteList ipBlackList : list string) (ip_address : string) : bool :=
  let mem l := existsb (String.eqb ip_address) l in
  match ipBlackList with
  | _ :: _ =>
      match ipWhiteList with
      | _ :: _ => mem ipWhiteList && negb (mem ipBlackList)
      | [] => negb (mem ipBlackList)
      end
  | [] =>
      match ipWhiteList with
      | _ :: _ => mem ipWhiteList
      | [] => true
      end
  end.

End Access.

(** Lookups, the listener drain and [handle_agent_request]. *)
Module Queries.
Import Store.

(** [is_agent_present(sessionID)]. *)
Definition is_agent_present (st : state) (sessionID : string) : bool :=
  in_cache (resolve st sessionID) st.

(** [get_agent_name_db(session_id)]: the name of the first row whose id or
    name is [session_id]. *)
Definition get_agent_name_db (st : state) (session_id : string) : option string :=
  option_map a_name
    (find (fun r => String.eqb (a_session_id r) session_id || String.eqb (a_name r) session_id)
       (db_agents st)).

(** The row [r] with its [taskings] column set to [v]. *)
Definition with_taskings (r : agent_row) (v : option (list task)) : agent_row :=
  mk_agent (a_session_id r) (a_name r) (a_session_key r) (a_nonce r)
    (a_listener r) (a_language r) (a_sysinfo r) v.


Section Request.

Variable aes_encrypt_then_hmac : string -> string -> string.
(** [packets.build_task_packet(task_name, task_data, res_id)]. *)
Variable build_task_packet : string -> string -> Z -> string.
(** [packets.build_routing_packet(stagingKey, sessionID, language, meta,
    encData)]. *)
Variable build_routing_packet : string -> string -> string -> string -> string -> string.

(** [handle_agent_request(sessionID, language, stagingKey, update_lastseen)]:
    the session id is looked up in [self.agents] as given; the exceptions of
    the database helpers propagate. *)
Definition handle_agent_request (st : state) (sessionID language stagingKey : string)
    (update_lastseen : bool) : state * pyres (option string) :=
  if negb (in_cache sessionID st) then
    (emit st ("[!] handle_agent_request(): sessionID " ++ sessionID ++ " not present"), PyVal None)
  else
  match (if update_lastseen then Inbound.update_agent_lastseen_db st sessionID
         else (st, PyVal tt)) with
  | (st, PyExc e) => (st, PyExc e)
  | (st, PyVal _) =>
  match get_agent_tasks_db st sessionID with
  | (st, PyExc e) => (st, PyExc e)
  | (st, PyVal []) => (st, PyVal None)
  | (st, PyVal taskings) =>
      let all_task_packets :=
        String.concat "" (map (fun t => build_task_packet (t_name t) (t_data t) (t_id t)) taskings) in
      (* [self.agents[sessionID]['sessionKey']]: the session id is cached here *)
      let session_key := match cache_get sessionID st with Some k => k | None => "" end in
      (st, PyVal (Some (build_routing_packet stagingKey sessionID language "SERVER_RESPONSE"
                          (aes_encrypt_then_hmac session_key all_task_packets))))
  end
  end.

End Request.

End Queries.

(** Association lists keyed by session id, as Python dicts and as the
    columns of the [agents] rows. *)
Module Assoc.

Definition get {A : Type} (k : string) (l : list (string * A)) : option A :=
  option_map snd (find (fun p => String.eqb (fst p) k) l).

Definition put {A : Type} (k : string) (v : A) (l : list (string * A)) : list (string * A) :=
  (filter (fun p => negb (String.eqb (fst p) k)) l ++ [(k, v)])%list.

End Assoc.

(** The tab-completable functions of an agent. *)
Module AgentFunctions.
Import Store.

(** [self.agents[sid]['functions']]: the list stored by
    [set_agent_functions_db], or the raw [functions] column that
    [Agents.__init__] copies from the row ([None] for NULL). *)
Inductive fvalue := FList (l : list string) | FColumn (c : option string).

(** The agent state, the [functions] entries of [self.agents], and the
    [functions] column of the [agents] rows by session id (absent: NULL). *)
Record fstate := mk_fstate {
  base : state;
  fn_cache : list (string * fvalue);
  fn_column : list (string * option string) }.

(** [set_agent_functions_db(session_id, functions)]. *)
Definition set_agent_functions_db (fs : fstate) (session_id : string) (functions : list string)
  : fstate * pyres unit :=
  let st := base fs in
  let sid := resolve st session_id in
  let c := if in_cache sid st then Assoc.put sid (FList functions) (fn_cache fs) else fn_cache fs in
  let functions := Py.join "," functions in
  match row_of sid st with
  | None => (mk_fstate st c (fn_column fs), PyExc "AttributeError")
  | Some _ => (mk_fstate (commit st) c (Assoc.put sid (Some functions) (fn_column fs)), PyVal tt)
  end.

(** [get_agent_functions(session_id)]. *)
Definition get_agent_functions (fs : fstate) (session_id : string) : pyres fvalue :=
  let sid := resolve (base fs) session_id in
  if in_cache sid (base fs) then
    match Assoc.get sid (fn_cache fs) with
    | Some v => PyVal v
    | None => PyExc "KeyError"
    end
  else PyVal (FList []).

(** [get_agent_functions_db(session_id)]: the first row whose id or name is
    [session_id]. *)
Definition get_agent_functions_db (fs : fstate) (session_id : string) : pyres (list string) :=
  match find (fun r => String.eqb (a_session_id r) session_id || String.eqb (a_name r) session_id)
             (db_agents (base fs)) with
  | None => PyExc "AttributeError"
  | Some r =>
      match Assoc.get (a_session_id r) (fn_column fs) with
      | Some (Some s) => PyVal (Py.split ","%char s)
      | _ => PyVal []
      end
  end.

(** A process restart: [Agents.__init__] sets [self.agents[sid] =
    {'sessionKey': ..., 'functions': agent['functions']}] for every row. *)
Definition restart (fs : fstate) : fstate :=
  mk_fstate (Store.restart (base fs))
    (map (fun r => (a_session_id r,
                    FColumn (match Assoc.get (a_session_id r) (fn_column fs) with
                             | Some c => c
                             | None => None
                             end)))
         (db_agents (base fs)))
    (fn_column fs).

End AgentFunctions.

(** The global script autoruns of the [config] table. *)
Module Config.

(** The [autorun_command] and [autorun_data] columns of the [config] rows,
    in table order ([None] for NULL). *)
Definition config := list (option string * option string).

(** [get_autoruns_db()]: the columns of the first row ([fetchone()]), each
    [''] when the table is empty. *)
Definition get_autoruns_db (cfg : config) : list (option string) :=
  [match cfg with (c, _) :: _ => c | [] => Some "" end;
   match cfg with (_, d) :: _ => d | [] => Some "" end].

(** [set_autoruns_db(taskCommand, moduleData)]: [UPDATE config SET ...]
    on every row. *)
Definition set_autoruns_db (cfg : config) (taskCommand moduleData : string) : config :=
  map (fun _ => (Some taskCommand, Some moduleData)) cfg.

(** [clear_autoruns_db()]. *)
Definition clear_autoruns_db (cfg : config) : config :=
  map (fun _ => (Some "", Some "")) cfg.

End Config.

(** The [results] column of the [agents] rows. *)
Module AgentResults.
Import Store.

(** The agent state and the [results] column by session id; NULL and ['']
    are both falsy for the two methods and are kept as [''] (absent). *)
Record rstate := mk_rstate { rbase : state; results_col : list (string * string) }.

Section AgentResults.

(** [json.dumps] of a [str], and [json.loads] of the column, which only
    [update_agent_results_db] writes ([None]: the text is not JSON). *)
Variable json_dumps : string -> string.
Variable json_loads : string -> option string.

Definition results_of (sid : string) (rs : rstate) : string :=
  match Assoc.get sid (results_col rs) with Some s => s | None => "" end.

(** [update_agent_results_db(session_id, results)]; the warning's [%s] is
    never filled in ([.format] on a [%] template). *)
Definition update_agent_results_db (rs : rstate) (session_id results : string)
  : rstate * pyres unit :=
  let st := rbase rs in
  let sid := resolve st session_id in
  if in_cache sid st then
    match row_of sid st with
    | None => (rs, PyExc "AttributeError")
    | Some _ =>
        let agent_results := (results_of sid rs ++ String "010" results)%string in
        (mk_rstate (commit st) (Assoc.put sid (json_dumps agent_results) (results_col rs)), PyVal tt)
    end
  else (mk_rstate (emit st "[!] Non-existent agent %s returned results") (results_col rs), PyVal tt).

(** [get_agent_results_db(session_id)]: the column is read, cleared and
    committed; [None] is the Python [None], for an agent that is not active
    or a falsy decoded value. *)
Definition get_agent_results_db (rs : rstate) (session_id : string)
  : rstate * pyres (option string) :=
  let st := rbase rs in
  let sid := resolve st session_id in
  if negb (in_cache sid st) then (rs, PyVal None)
  else match row_of sid st with
  | None => (rs, PyExc "AttributeError")
  | Some _ =>
      let results := results_of sid rs in
      let rs' := mk_rstate (commit st) (Assoc.put sid "" (results_col rs)) in
      if String.eqb results "" then (rs', PyVal (Some ""))
      else match json_loads results with
           | None => (rs', PyExc "JSONDecodeError")
           | Some out => (rs', PyVal (if String.eqb out "" then None else Some out))
           end
  end.

End AgentResults.

End AgentResults.

(** [save_agent_log(sessionID, data)], over the file map of [Files]. *)
Module AgentLog.

(** [current_time] is [helpers.get_datetime()]. *)
Definition save_agent_log (cwd installPath current_time : string) (st : Store.state)
    (sessionID data : string) (files : list (string * string)) : list (string * string) :=
  let name := match Queries.get_agent_name_db st sessionID with Some n => n | None => "None" end in
  let save_path := installPath ++ "/downloads/" ++ name ++ "/" in
  let target := PosixPath.abspath cwd (save_path ++ "/agent.log") in
  let old := match Files.file_get target files with Some c => c | None => "" end in
  Files.file_put target
    (old ++ String "010" current_time ++ " : " ++ String "010" (data ++ String "010" "")) files.

End AgentLog.

(** [rename_agent(old_name, new_name)]. *)
Module Rename.
Import Store.

Section Rename.

Variable cwd installPath current_time : string.
(** [str.isalnum()]. *)
Variable isalnum : string -> bool.
(** [os.path.exists] on the download folders. *)
Variable path_exists : string -> bool.

(** [os.rename(old, new)] on a folder: every file below [oldp] moves below
    [newp] (both normalised absolute paths). *)
Definition move_tree (oldp newp : string) (files : list (string * string))
  : list (string * string) :=
  map (fun kv => if Py.startswith (fst kv) (oldp ++ "/")
                 then (newp ++ substring (String.length oldp) (String.length (fst kv)) (fst kv), snd kv)
                 else kv) files.

(** The row [r] with its [name] column set to [n]. *)
Definition with_name (r : agent_row) (n : string) : agent_row :=
  mk_agent (a_session_id r) n (a_session_key r) (a_nonce r)
    (a_listener r) (a_language r) (a_sysinfo r) (a_taskings r).

(** The folder is moved before the row is looked up, so a missing row
    raises after the move; the log line is written through
    [save_agent_log(old_name, ...)]. *)
Definition rename_agent (st : state) (files : list (string * string)) (old_name new_name : string)
  : state * list (string * string) * pyres bool :=
  if negb (isalnum new_name) then (st, files, PyVal false) else
  let old_path := installPath ++ "/downloads/" ++ old_name ++ "/" in
  let new_path := installPath ++ "/downloads/" ++ new_name ++ "/" in
  let log st files := AgentLog.save_agent_log cwd installPath current_time st old_name
                        ("[*] Agent renamed from " ++ old_name ++ " to " ++ new_name) files in
  if path_exists new_path then (st, log st files, PyVal false)
  else
    let files := if path_exists old_path
                 then move_tree (PosixPath.abspath cwd old_path) (PosixPath.abspath cwd new_path) files
                 else files in
    match find (fun r => String.eqb (a_name r) old_name) (db_agents st) with
    | None => (st, files, PyExc "AttributeError")
    | Some r =>
        let rows := map (fun x => if String.eqb (a_session_id x) (a_session_id r)
                                  then with_name x new_name else x) (db_agents st) in
        let st := commit (set_agents st rows) in
        (st, log st files, PyVal true)
    end.

End Rename.

End Rename.

(** ** Concrete inputs *)

(** A staged agent [ABCD1234] with nonce [1234567890123456], present in the
    cache and in the [agents] table. *)
Definition agent_abcd : Store.agent_row :=
  Store.mk_agent "ABCD1234" "ABCD1234" "key" "1234567890123456" "http" "powershell" None None.

Definition state_abcd : Store.state :=
  Store.mk_state [("ABCD1234", "key")] [agent_abcd] [] [] [] [] [].

(** STAGE2 plaintexts: nonce+1 with 12 fields, the same with a 13th field,
    and the stored nonce itself (a replay). *)
Definition sysinfo12 : string :=
  "1234567890123457|http|CORP|alice|host1|10.0.0.5|Linux|True|python3|4242|python|3.8".


Definition sysinfo_replay : string :=
  "1234567890123456|http|CORP|alice|host1|10.0.0.5|Linux|True|python3|4242|python|3.8".


(** The decoded fields [parts[1:12]] of [sysinfo12] and the sysinfo they give. *)
Definition fields12 : list string :=
  ["http"; "CORP"; "alice"; "host1"; "10.0.0.5"; "Linux"; "True"; "python3"; "4242"; "python"; "3.8"].

Definition si12 : Store.sysinfo :=
  Store.mk_sysinfo "10.0.0.5" ("CORP" ++ "\" ++ "alice") "host1" "Linux" 1 "python3" "4242" "3.8" "python".

(** The session-key decryption of a body that was sealed from its plaintext. *)
Definition dec_plain (key body : string) : option string := Some body.

(** A client that tasks agent [sid] [n] times and drains its queue after
    each enqueue: the ids returned by [add_agent_task_db]. *)
Fixpoint enqueue_drain (n : nat) (st : Store.state) (sid name task : string)
  : Store.state * list (option Z) :=
  match n with
  | O => (st, [])
  | S k =>
      let '(st1, pk) := Store.add_agent_task_db st sid name task in
      let st2 := fst (Store.get_agent_tasks_db st1 sid) in
      let '(st3, pks) := enqueue_drain k st2 sid name task in
      (st3, pk :: pks)
  end.

(** The ids [next_task_id] hands out [n] times in a row when each id is
    added to the ids of the agent, knowing only their maximum [m]. *)
Fixpoint id_run (n : nat) (m : option Z) : list Z :=
  match n with
  | O => []
  | S k =>
      let pk := ((match m with None => 0 | Some x => x end + 1) mod 65536)%Z in
      pk :: id_run k (Some (match m with None => pk | Some x => Z.max x pk end))
  end.

(** [start, start + 1, ..., start + n - 1]. *)
Fixpoint zseq (start : Z) (n : nat) : list Z :=
  match n with
  | O => []
  | S k => start :: zseq (start + 1) k
  end.

(** Agent [ABCD1234] with two tasks (ids 1 and 2) awaiting results. *)
Definition state_results : Store.state :=
  Store.mk_state [("ABCD1234", "key")] [agent_abcd]
    [(1%Z, "ABCD1234", "sysinfo"); (2%Z, "ABCD1234", "sysinfo")]
    [(1%Z, "ABCD1234", None); (2%Z, "ABCD1234", None)] [] [] [].

(** A RESULT_POST body of two [TASK_SYSINFO] packets: a short, decodable
    one for task 1 and one for task 2 holding the byte 0xFF, which is not
    UTF-8. *)
Definition result_body : list Inbound.result_packet :=
  [Inbound.mk_result_packet "TASK_SYSINFO" 1 1 1 5 "short";
   Inbound.mk_result_packet "TASK_SYSINFO" 1 1 2 1 (String (ascii_of_nat 255) "")].

(** [parse_result_packets] answering [result_body] for any plaintext. *)
Definition parse_result_body (packet : string) : option (list Inbound.result_packet) :=
  Some result_body.

(** ["1_1_..._1"] with [n] underscores: [int()] reads it as a number. *)
Fixpoint underscored (n : nat) : string :=
  match n with
  | O => "1"
  | S k => "1_" ++ underscored k
  end.

(** Concrete cryptographic collaborators for the Python key exchange. *)
Definition enc_tag (key data : string) : string := key ++ ":" ++ data.
Definition dh_key_of (clientPub : Z) : string := "k" ++ Py.str_of_Z (clientPub mod 97).

(** A stand-in JSON codec for strings: a tag character in front. *)
Definition json_tag (s : string) : string := "J" ++ s.
Definition json_untag (s : string) : option string :=
  match s with
  | String c t => if Ascii.eqb c "J"%char then Some t else None
  | EmptyString => None
  end.

(** Two frames from sessions that never staged. *)
Definition stray_frames : list Inbound.frame :=
  [Inbound.mk_frame "ZZZZ0000" "powershell" "TASKING_REQUEST" "" "";
   Inbound.mk_frame "YYYY0000" "python" "RESULT_POST" "" "x"].

(** [str.isalnum] on ASCII text: non-empty, every character a letter or a digit. *)
Definition ascii_isalnum (c : ascii) : bool :=
  let n := nat_of_ascii c in
  ((Nat.leb 48 n && Nat.leb n 57) || (Nat.leb 65 n && Nat.leb n 90)
   || (Nat.leb 97 n && Nat.leb n 122))%nat.

Definition str_isalnum (s : string) : bool :=
  match s with
  | EmptyString => false
  | _ => forallb ascii_isalnum (list_ascii_of_string s)
  end.



(** * Properties *)

(** ** Helper lemmas *)

Lemma file_get_put (k v : string) (l : list (string * string)) :
  Files.file_get k (Files.file_put k v l) = Some v.
Proof.
  induction l as [|[k' v'] t IH]; simpl.
  - rewrite String.eqb_refl; reflexivity.
  - destruct (String.eqb k k') eqn:E; simpl.
    + rewrite String.eqb_refl; reflexivity.
    + rewrite E; exact IH.
Qed.

Lemma round_half_even_ge_floor (q : Q) : (Qfloor q <= Py.round_half_even q)%Z.
Proof.
  unfold Py.round_half_even.
  destruct (negb (Qle_bool _ _)); [lia|].
  destruct (Qeq_bool _ _); [destruct (Z.even _)|]; lia.
Qed.

Lemma percent_of_above_100 (n f : Z) :
  (0 < f)%Z -> (101 * f <= 100 * n)%Z -> (100 < Files.percent_of n f)%Q.
Proof.
  intros Hf Hn.
  unfold Files.percent_of, Py.round2.
  set (x := (inject_Z n / inject_Z f * 100 * 100)%Q).
  assert (Hx : (inject_Z 10100 <= x)%Q).
  { subst x. destruct f as [|p|p]; try lia.
    unfold inject_Z, Qdiv, Qinv, Qmult, Qle; simpl. nia. }
  pose proof (Qfloor_resp_le _ _ Hx) as Hfl.
  rewrite Qfloor_Z in Hfl.
  pose proof (round_half_even_ge_floor x) as Hr.
  unfold Qlt; simpl. lia.
Qed.

(** ** File sink *)

(** C1 (failing input): a download path whose [..] segments climb out of
    [downloads/] into a sibling whose name starts with "downloads" passes
    the skywalker guard, which compares plain string prefixes against
    [os.path.abspath(installPath + "downloads/")] (no trailing slash).  The
    file is written at [/opt/Empire/downloads.txt], outside [downloads/], and
    no warning is sent. *)
Theorem save_file_writes_outside_downloads (cwd : string) (dec_data : string -> string * bool) :
  let r := Files.save_file cwd dec_data "/opt/Empire/" "ABCD1234" "powershell"
             "..\..\downloads.txt" "secret" 6 false (Files.mk_fs [] []) in
  Files.files (fst r) = [("/opt/Empire/downloads.txt", "secret")]
  /\ Py.startswith "/opt/Empire/downloads.txt" "/opt/Empire/downloads/" = false
  /\ Files.events (fst r) = [Files.EvPartSaved "downloads.txt" "ABCD1234" (Qmake 10000 100)].
Proof.
  vm_compute. repeat split; reflexivity.
Qed.

(** C9 (counterexample): appending a 6-byte chunk to a 2-byte partial file
    with declared size 4 reports 200%, above 100. *)
Lemma save_file_percent_over_100 :
  let r := Files.save_file "/" (fun d => (d, true)) "/opt/Empire/" "ABCD1234" "powershell"
             "reports\q.pdf" "secret" 4 true
             (Files.mk_fs [("/opt/Empire/downloads/ABCD1234/reports/q.pdf", "xx")] []) in
  Files.events (fst r) = [Files.EvPartSaved "q.pdf" "ABCD1234" (Qmake 20000 100)]
  /\ (100 < Qmake 20000 100)%Q.
Proof.
  vm_compute. split; reflexivity.
Qed.

(** C9 (amended): with [filesize > 0], a call of [save_file] either refuses
    the path (files unchanged, a skywalker warning sent) or writes the chunk
    and reports [round(on_disk / filesize * 100, 2)] for the bytes now on
    disk, with no clamp: the value exceeds 100 once the file holds at least
    101% of [filesize]. *)
Theorem save_file_progress_unclamped (cwd : string) (dec_data : string -> string * bool)
    (installPath sessionID lang path data : string) (filesize : Z) (append : bool)
    (s : Files.fs) :
  (0 < filesize)%Z ->
  let r := fst (Files.save_file cwd dec_data installPath sessionID lang path data filesize append s) in
  (Files.files r = Files.files s
   /\ exists p, Files.events r = (Files.events s ++ [Files.EvSkywalker sessionID p])%list)
  \/ (exists target content evs fn,
        Files.file_get target (Files.files r) = Some content
        /\ Files.events r =
             (Files.events s ++ evs
              ++ [Files.EvPartSaved fn sessionID
                    (Files.percent_of (Z.of_nat (String.length content)) filesize)])%list
        /\ ((101 * filesize <= 100 * Z.of_nat (String.length content))%Z ->
            (100 < Files.percent_of (Z.of_nat (String.length content)) filesize)%Q)).
Proof.
  intros Hf r. subst r. unfold Files.save_file.
  destruct (negb _) eqn:Eg.
  - left. simpl. split; [reflexivity | eexists; reflexivity].
  - right.
    destruct (if Py.contains "python" lang then _ else _) as [d evs].
    destruct (filesize =? 0)%Z eqn:Ez; [apply Z.eqb_eq in Ez; lia|].
    simpl. do 4 eexists. split; [apply file_get_put|].
    split; [reflexivity|].
    intros H. apply percent_of_above_100; assumption.
Qed.

Lemma save_file_progress_unclamped_witness :
  (0 < 4)%Z /\
  let r := fst (Files.save_file "/" (fun d => (d, true)) "/opt/Empire/" "ABCD1234" "powershell"
                  "reports\q.pdf" "secret" 4 true
                  (Files.mk_fs [("/opt/Empire/downloads/ABCD1234/reports/q.pdf", "xx")] [])) in
  (Files.files r = Files.files (Files.mk_fs [("/opt/Empire/downloads/ABCD1234/reports/q.pdf", "xx")] [])
   /\ exists p, Files.events r = ([] ++ [Files.EvSkywalker "ABCD1234" p])%list)
  \/ (exists target content evs fn,
        Files.file_get target (Files.files r) = Some content
        /\ Files.events r =
             ([] ++ evs
              ++ [Files.EvPartSaved fn "ABCD1234"
                    (Files.percent_of (Z.of_nat (String.length content)) 4)])%list
        /\ ((101 * 4 <= 100 * Z.of_nat (String.length content))%Z ->
            (100 < Files.percent_of (Z.of_nat (String.length content)) 4)%Q)).
Proof.
  split; [lia|].
  apply (save_file_progress_unclamped "/" (fun d => (d, true)) "/opt/Empire/" "ABCD1234"
           "powershell" "reports\q.pdf" "secret" 4 true
           (Files.mk_fs [("/opt/Empire/downloads/ABCD1234/reports/q.pdf", "xx")] [])).
  lia.
Defined.

(** ** Agent table and task queue *)

(** C10 (failing input): [remove_agent_db(ABCD1234)] empties the cache but
    leaves the [agents] table as it was, since its [DELETE] is not
    committed, and a restart brings the agent back into the cache.  Under
    the lower-case spelling [abcd1234], [self.agents.pop] keeps the cache
    entry while [LIKE] (ASCII case ignored) deletes the row, so once a later
    [Session().commit()] makes the deletion final the table is empty and
    the cache still holds [ABCD1234]. *)
Theorem remove_agent_db_cache_table_mismatch :
  let st1 := Store.remove_agent_db state_abcd "ABCD1234" in
  let st2 := Store.commit (Store.remove_agent_db state_abcd "abcd1234") in
  map fst (Store.cache state_abcd) = map Store.a_session_id (Store.committed_agents state_abcd)
  /\ map fst (Store.cache st1) = []
  /\ map Store.a_session_id (Store.committed_agents st1) = ["ABCD1234"]
  /\ map fst (Store.cache (Store.restart st1)) = ["ABCD1234"]
  /\ map fst (Store.cache st2) = ["ABCD1234"]
  /\ map Store.a_session_id (Store.committed_agents st2) = [].
Proof.
  vm_compute. repeat split; reflexivity.
Qed.

(** C5 (failing input): after enqueueing one task and draining it, the
    drained task comes back when the process restarts before any commit,
    because [get_agent_tasks_db] never calls [Session().commit()]. *)
Theorem drain_not_persisted :
  let '(st1, pk) := Store.add_agent_task_db state_abcd "ABCD1234" "TASK_SHELL" "whoami" in
  let '(st2, first) := Store.get_agent_tasks_db st1 "ABCD1234" in
  pk = Some 1%Z
  /\ first = Store.PyVal [Store.mk_task "TASK_SHELL" "whoami" 1]
  /\ snd (Store.get_agent_tasks_db st2 "ABCD1234") = Store.PyVal []
  /\ snd (Store.get_agent_tasks_db (Store.restart st2) "ABCD1234")
     = Store.PyVal [Store.mk_task "TASK_SHELL" "whoami" 1].
Proof.
  vm_compute. repeat split; reflexivity.
Qed.

(** ** Inbound data *)

(** C8: a transport body shorter than 20 bytes is answered with [None]
    and leaves the state as it was, whatever the collaborators do. *)
Theorem handle_agent_data_short_body
    (dec : string -> string -> option string)
    (parse_routing : string -> string -> option (list Inbound.frame))
    (parse_results : string -> option (list Inbound.result_packet))
    (staging request : Store.state -> Inbound.frame -> Store.state * Store.pyres (option string))
    (opcode : Store.state -> string -> string -> Z -> string -> Store.state * option string)
    (st : Store.state) (stagingKey body : string) (update_lastseen : bool) :
  (String.length body < 20)%nat ->
  Inbound.handle_agent_data dec parse_routing parse_results staging request opcode
    st stagingKey body update_lastseen = (st, Store.PyVal None).
Proof.
  intros H. unfold Inbound.handle_agent_data.
  apply Nat.ltb_lt in H. rewrite H. reflexivity.
Qed.

Lemma handle_agent_data_short_body_witness :
  (String.length "0123456789" < 20)%nat /\
  Inbound.handle_agent_data (fun _ _ => None) (fun _ _ => None) (fun _ => None)
    (fun st _ => (st, Store.PyVal None)) (fun st _ => (st, Store.PyVal None))
    (fun st _ _ _ _ => (st, None))
    state_abcd "stagingkey" "0123456789" true = (state_abcd, Store.PyVal None).
Proof.
  split; [vm_compute; lia|].
  apply (handle_agent_data_short_body (fun _ _ => None) (fun _ _ => None) (fun _ => None)
           (fun st _ => (st, Store.PyVal None)) (fun st _ => (st, Store.PyVal None))
           (fun st _ _ _ _ => (st, None)) state_abcd "stagingkey" "0123456789" true).
  vm_compute. lia.
Defined.

(** ** Staging *)

Section StoreFacts.
Import Store.

Lemma like_star_here (m : string -> bool) (s : string) : m s = true -> like_star m s = true.
Proof. intros H. destruct s; simpl; rewrite H; reflexivity. Qed.

Lemma like_refl (s : string) : like s s = true.
Proof.
  induction s as [|c s IH]; [reflexivity|].
  cbn [like]. destruct (Ascii.eqb c "%"%char).
  - cbn [like_star]. rewrite (like_star_here _ _ IH). apply orb_true_r.
  - rewrite Ascii.eqb_refl, IH, orb_true_r. reflexivity.
Qed.

Lemma like_percent (s : string) : like "%" s = true.
Proof.
  change (like_star (like "") s = true).
  induction s as [|c s IH]; [reflexivity|].
  cbn [like_star]. rewrite IH. apply orb_true_r.
Qed.

Lemma cache_pop_find (sid : string) (c : list (string * string)) :
  find (fun p => String.eqb (fst p) sid) (cache_pop sid c) = None.
Proof.
  induction c as [|[k v] t IH]; [reflexivity|].
  unfold cache_pop in *. simpl.
  destruct (String.eqb k sid) eqn:E; simpl; [exact IH|].
  rewrite E. exact IH.
Qed.

Lemma find_filter_like (pat sid : string) (rows : list agent_row) :
  like pat sid = true ->
  find (fun r => String.eqb (a_session_id r) sid)
    (filter (fun r => negb (like pat (a_session_id r))) rows) = None.
Proof.
  intros Hl. induction rows as [|r t IH]; [reflexivity|].
  simpl. destruct (like pat (a_session_id r)) eqn:E; simpl; [exact IH|].
  destruct (String.eqb (a_session_id r) sid) eqn:E2; [|exact IH].
  apply String.eqb_eq in E2. rewrite E2 in E. congruence.
Qed.

Lemma resolve_own (st : state) (sid : string) : names_own st sid -> resolve st sid = sid.
Proof.
  intros H. unfold resolve, get_agent_id_db.
  destruct (find (fun r => String.eqb (a_name r) sid) (db_agents st)) as [r|] eqn:E;
    simpl; [|reflexivity].
  apply find_some in E. destruct E as [Hin Hn]. apply String.eqb_eq in Hn.
  rewrite (H r Hin Hn). destruct (String.eqb sid ""); reflexivity.
Qed.

Lemma remove_agent_db_gone (st : state) (sid : string) :
  names_own st sid ->
  cache_get sid (remove_agent_db st sid) = None /\ row_of sid (remove_agent_db st sid) = None.
Proof.
  intros H. unfold remove_agent_db, cache_get, row_of.
  destruct (String.eqb sid "%" || String.eqb (Py.lower sid) "all"); simpl.
  - split; [reflexivity|]. apply (find_filter_like "%" sid), like_percent.
  - rewrite (resolve_own st sid H). split.
    + rewrite cache_pop_find. reflexivity.
    + apply find_filter_like, like_refl.
Qed.

(** [remove_agent_db] leaves the [agents] table itself as it was: every
    committed row is still there, deleted only in the session's view. *)
Lemma remove_agent_db_committed (st : state) (x : string) (r : agent_row) :
  In r (committed_agents st) -> In r (committed_agents (remove_agent_db st x)).
Proof.
  intros H. unfold remove_agent_db.
  set (p := if String.eqb x "%" || String.eqb (Py.lower x) "all" then _ else _).
  destruct p as [sid c]. unfold committed_agents in *. cbn.
  apply in_app_or in H. apply in_or_app. destruct H as [H|H].
  - destruct (like sid (a_session_id r)) eqn:E.
    + right. apply in_or_app. right. apply filter_In. split; assumption.
    + left. apply filter_In. rewrite E. split; [assumption|reflexivity].
  - right. apply in_or_app. left. exact H.
Qed.

(** A restart puts every committed row back in [self.agents]. *)
Lemma restart_in_cache (st : state) (r : agent_row) :
  In r (committed_agents st) -> in_cache (a_session_id r) (restart st) = true.
Proof.
  intros H. unfold in_cache, restart. cbn [cache]. apply existsb_exists.
  exists (a_session_id r, a_session_key r). split.
  - apply in_map_iff. exists r. split; [reflexivity|exact H].
  - apply String.eqb_refl.
Qed.

Lemma row_of_committed (st : state) (sid : string) (r : agent_row) :
  row_of sid st = Some r -> In r (committed_agents st) /\ a_session_id r = sid.
Proof.
  intros H. unfold row_of in H. apply find_some in H. destruct H as [Hin E].
  split; [apply in_or_app; left; exact Hin | apply String.eqb_eq, E].
Qed.

(** What [remove_agent_db(sid)] does to an agent with a row: gone from the
    cache and from the session's view, still in the [agents] table, and back
    in the cache after a restart. *)
Lemma remove_agent_db_uncommitted (st : state) (m sid : string) :
  names_own st sid -> row_of sid st <> None ->
  cache_get sid (remove_agent_db (emit st m) sid) = None
  /\ row_of sid (remove_agent_db (emit st m) sid) = None
  /\ (forall r, In r (committed_agents st) ->
               In r (committed_agents (remove_agent_db (emit st m) sid)))
  /\ in_cache sid (restart (remove_agent_db (emit st m) sid)) = true.
Proof.
  intros Ho Hr. destruct (remove_agent_db_gone (emit st m) sid Ho) as [H1 H2].
  assert (Hc : forall r, In r (committed_agents st) ->
                         In r (committed_agents (remove_agent_db (emit st m) sid)))
    by (intros r Hin; apply remove_agent_db_committed; exact Hin).
  split; [exact H1|]. split; [exact H2|]. split; [exact Hc|].
  destruct (row_of sid st) as [r|] eqn:E; [|congruence].
  destruct (row_of_committed st sid r E) as [Hin Hid].
  pose proof (restart_in_cache _ r (Hc r Hin)) as R. rewrite Hid in R. exact R.
Qed.

Lemma find_map_sid (f : agent_row -> agent_row) (l : list agent_row) (x : string) :
  (forall r, a_session_id (f r) = a_session_id r) ->
  find (fun r => String.eqb (a_session_id r) x) (map f l)
  = option_map f (find (fun r => String.eqb (a_session_id r) x) l).
Proof.
  intros Hf. induction l as [|r t IH]; [reflexivity|].
  simpl. rewrite Hf. destruct (String.eqb (a_session_id r) x); [reflexivity|exact IH].
Qed.

Lemma commit_row (st : state) (x : string) :
  cache (commit st) = cache st /\
  option_map a_sysinfo (row_of x (commit st)) = option_map a_sysinfo (row_of x st).
Proof.
  split; [reflexivity|]. unfold commit, row_of. simpl.
  rewrite find_map_sid.
  - destruct (find _ (db_agents st)) as [r|]; [|reflexivity]. simpl.
    destruct (find _ (pending st)) as [[? ?]|]; reflexivity.
  - intros r. destruct (find _ (pending st)) as [[? ?]|]; reflexivity.
Qed.

Lemma add_agent_task_db_row (st : state) (sid name data x : string) :
  cache (fst (add_agent_task_db st sid name data)) = cache st /\
  option_map a_sysinfo (row_of x (fst (add_agent_task_db st sid name data)))
  = option_map a_sysinfo (row_of x st).
Proof.
  unfold add_agent_task_db.
  destruct (negb (in_cache (resolve st sid) st)); [split; reflexivity|].
  destruct (String.eqb (resolve st sid) ""); [split; reflexivity|].
  simpl. split; [reflexivity|]. unfold row_of, set_row_taskings. simpl.
  rewrite find_map_sid.
  - destruct (find (fun r => String.eqb (a_session_id r) x) (db_agents st)) as [r|];
      [|reflexivity].
    simpl. destruct (String.eqb (a_session_id r) (resolve st sid)); reflexivity.
  - intros r. destruct (String.eqb (a_session_id r) (resolve st sid)); reflexivity.
Qed.

End StoreFacts.

Section StagingFacts.
Import Store.

Lemma update_agent_sysinfo_db_row (st : state) (sid : string) (si : sysinfo) (r : agent_row) :
  names_own st sid -> row_of sid st = Some r ->
  exists st', Staging.update_agent_sysinfo_db st sid si = (st', PyVal tt)
    /\ cache st' = cache st
    /\ option_map a_sysinfo (row_of sid st') = Some (Some si).
Proof.
  intros Hn Hr. unfold Staging.update_agent_sysinfo_db.
  rewrite (resolve_own st sid Hn), Hr.
  eexists. split; [reflexivity|]. split; [reflexivity|].
  rewrite (proj2 (commit_row _ sid)). unfold row_of. simpl.
  rewrite find_map_sid.
  - unfold row_of in Hr. rewrite Hr. simpl.
    apply find_some in Hr. destruct Hr as [_ Hr]. rewrite Hr. reflexivity.
  - intros x. destruct (String.eqb (a_session_id x) sid); reflexivity.
Qed.

Lemma stage2_activates (dec : string -> string -> option string)
    (autoruns : option (string * string)) (st : state)
    (sid enc clientIP listenerName key message nonce : string) (n : Z)
    (fields : list string) (si : sysinfo) :
  cache_get sid st = Some key ->
  dec key enc = Some message ->
  (12 <= length (Py.split "|"%char message))%nat ->
  Py.int (nth 0 (Py.split "|"%char message) "") = Some (n + 1)%Z ->
  Staging.get_agent_nonce_db st sid = Some nonce ->
  Py.int nonce = Some n ->
  Staging.decode_all (firstn 11 (skipn 1 (Py.split "|"%char message))) = Some fields ->
  Staging.sysinfo_of fields = Some si ->
  names_own st sid ->
  let '(st', res) := Staging.stage2 dec autoruns st sid enc clientIP listenerName in
  res = PyVal (Some ("STAGE2: " ++ sid))
  /\ cache_get sid st' = Some key
  /\ option_map a_sysinfo (row_of sid st') = Some (Some si).
Proof.
  intros Hc Hd Hl Hg Hnon Hn Hdec Hsi Hown.
  unfold Staging.stage2. rewrite Hc, Hd. cbv zeta.
  assert (E : (length (Py.split "|"%char message) <? 12)%nat = false)
    by (apply Nat.ltb_ge; exact Hl).
  rewrite E, Hg, Hnon, Hn, Z.eqb_refl. simpl negb. cbv iota.
  rewrite Hdec, Hsi.
  unfold Staging.get_agent_nonce_db in Hnon.
  destruct (row_of sid st) as [r|] eqn:Hr; [|discriminate].
  destruct (update_agent_sysinfo_db_row (emit st ("[!] Nonce verified: agent " ++ sid
              ++ " posted valid sysinfo checkin format: " ++ Staging.bytes_repr message))
              sid si r Hown Hr) as [st1 [Hu [Hc1 Hs1]]].
  rewrite Hu.
  set (st2 := emit st1 _).
  assert (Hc2 : cache st2 = cache st) by exact Hc1.
  assert (Hs2 : option_map a_sysinfo (row_of sid st2) = Some (Some si)) by exact Hs1.
  clearbody st2.
  destruct autoruns as [[cmd data]|];
    [destruct (negb (String.eqb cmd "") && negb (String.eqb data ""))|].
  - destruct (add_agent_task_db_row st2 sid cmd data sid) as [Hc3 Hs3].
    split; [reflexivity|]. split.
    + unfold cache_get in *. rewrite Hc3, Hc2. exact Hc.
    + rewrite Hs3. exact Hs2.
  - split; [reflexivity|]. split; [|exact Hs2].
    unfold cache_get in *. rewrite Hc2. exact Hc.
  - split; [reflexivity|]. split; [|exact Hs2].
    unfold cache_get in *. rewrite Hc2. exact Hc.
Qed.

End StagingFacts.

Lemma names_own_abcd : Store.names_own state_abcd "ABCD1234".
Proof. intros r [<-|[]] _. reflexivity. Qed.

(** C2 (failing input): for a staged agent whose stored nonce reads as
    [n], a STAGE2 plaintext whose first field reads as an integer other than
    [n + 1] returns a string starting with "ERROR" and removes the agent from
    the cache and from the ORM session's view of [agents], but the [DELETE]
    is not committed: the [agents] table keeps every row, and after a
    restart the agent is in the cache again.  One whose first field is
    [n + 1], with 12 decodable fields, returns "STAGE2: " followed by the
    session id, keeps the agent and stores its sysinfo. *)
Theorem stage2_nonce_verification (dec : string -> string -> option string)
    (autoruns : option (string * string)) (st : Store.state)
    (sid encData clientIP listenerName key message nonce : string) (n got : Z) :
  Store.cache_get sid st = Some key ->
  dec key encData = Some message ->
  Staging.get_agent_nonce_db st sid = Some nonce ->
  Py.int nonce = Some n ->
  Py.int (nth 0 (Py.split "|"%char message) "") = Some got ->
  Store.names_own st sid ->
  (got <> (n + 1)%Z ->
   let '(st', res) := Staging.stage2 dec autoruns st sid encData clientIP listenerName in
   (exists e, res = Store.PyVal (Some ("ERROR" ++ e)))
   /\ Store.cache_get sid st' = None /\ Store.row_of sid st' = None
   /\ (forall r, In r (Store.committed_agents st) -> In r (Store.committed_agents st'))
   /\ Store.in_cache sid (Store.restart st') = true)
  /\ (got = (n + 1)%Z -> length (Py.split "|"%char message) = 12%nat ->
      forall fields si,
      Staging.decode_all (firstn 11 (skipn 1 (Py.split "|"%char message))) = Some fields ->
      Staging.sysinfo_of fields = Some si ->
      let '(st', res) := Staging.stage2 dec autoruns st sid encData clientIP listenerName in
      res = Store.PyVal (Some ("STAGE2: " ++ sid))
      /\ Store.cache_get sid st' = Some key
      /\ option_map Store.a_sysinfo (Store.row_of sid st') = Some (Some si)).
Proof.
  intros Hc Hd Hnon Hn Hg Hown.
  assert (Hrow : Store.row_of sid st <> None).
  { unfold Staging.get_agent_nonce_db in Hnon. intros E. rewrite E in Hnon. discriminate. }
  split.
  - intros Hne. unfold Staging.stage2. rewrite Hc, Hd. cbv zeta.
    destruct (length (Py.split "|"%char message) <? 12)%nat.
    + split; [eexists; reflexivity|]. apply (remove_agent_db_uncommitted st _ sid Hown Hrow).
    + rewrite Hg, Hnon, Hn.
      assert (E : (got =? n + 1)%Z = false) by (apply Z.eqb_neq; exact Hne).
      rewrite E. simpl negb. cbv iota.
      split; [eexists; reflexivity|]. apply (remove_agent_db_uncommitted st _ sid Hown Hrow).
  - intros Heq Hlen fields si Hdec Hsi. subst got.
    apply (stage2_activates dec autoruns st sid encData clientIP listenerName key
             message nonce n fields si); try assumption.
    rewrite Hlen. apply le_n.
Qed.

Lemma stage2_nonce_verification_witness :
  (let '(st', res) := Staging.stage2 dec_plain None state_abcd "ABCD1234" sysinfo_replay "1.2.3.4" "http" in
   (exists e, res = Store.PyVal (Some ("ERROR" ++ e)))
   /\ Store.cache_get "ABCD1234" st' = None /\ Store.row_of "ABCD1234" st' = None
   /\ (forall r, In r (Store.committed_agents state_abcd) -> In r (Store.committed_agents st'))
   /\ Store.in_cache "ABCD1234" (Store.restart st') = true)
  /\ (let '(st', res) := Staging.stage2 dec_plain None state_abcd "ABCD1234" sysinfo12 "1.2.3.4" "http" in
      res = Store.PyVal (Some ("STAGE2: " ++ "ABCD1234"))
      /\ Store.cache_get "ABCD1234" st' = Some "key"
      /\ option_map Store.a_sysinfo (Store.row_of "ABCD1234" st') = Some (Some si12)).
Proof.
  split.
  - refine (proj1 (stage2_nonce_verification dec_plain None state_abcd "ABCD1234" sysinfo_replay
             "1.2.3.4" "http" "key" sysinfo_replay "1234567890123456" 1234567890123456
             1234567890123456 _ _ _ _ _ _) _);
      [reflexivity | reflexivity | reflexivity | vm_compute; reflexivity
      | vm_compute; reflexivity | exact names_own_abcd | lia].
  - refine (proj2 (stage2_nonce_verification dec_plain None state_abcd "ABCD1234" sysinfo12
             "1.2.3.4" "http" "key" sysinfo12 "1234567890123456" 1234567890123456
             1234567890123457 _ _ _ _ _ _) _ _ fields12 si12 _ _);
      [reflexivity | reflexivity | reflexivity | vm_compute; reflexivity
      | vm_compute; reflexivity | exact names_own_abcd | reflexivity
      | vm_compute; reflexivity | vm_compute; reflexivity | vm_compute; reflexivity].
Defined.

(** ** Field count of the STAGE2 check-in *)




(** ** Python key exchange (STAGE1) *)

Lemma find_app_none {A : Type} (f : A -> bool) (l1 l2 : list A) :
  find f l1 = None -> find f (l1 ++ l2) = find f l2.
Proof.
  intros H. induction l1 as [|x t IH]; [reflexivity|].
  simpl in *. destruct (f x); [discriminate|]. exact (IH H).
Qed.

Section AddAgentFacts.
Import Store.

(** [add_agent] for a session id with no row: the row and the cache entry
    carry the given key, nonce and listener. *)
Lemma taken_row_of (st : state) (sid : string) :
  Staging.taken st sid sid = false -> row_of sid st = None.
Proof.
  unfold Staging.taken, row_of. intros H.
  induction (db_agents st) as [|r t IH]; [reflexivity|].
  simpl in *. destruct (String.eqb (a_session_id r) sid); [discriminate|].
  apply IH. apply orb_false_iff in H. exact (proj2 H).
Qed.

Lemma add_agent_fresh (genkey : string) (st : state)
    (sid key nonce listener language : string) :
  Staging.taken st sid sid = false -> String.eqb key "" = false ->
  exists st', Staging.add_agent genkey st sid key nonce listener language = (st', PyVal tt)
    /\ option_map (fun r => (a_session_key r, a_nonce r, a_listener r)) (row_of sid st')
       = Some (key, nonce, listener)
    /\ cache_get sid st' = Some key.
Proof.
  intros Ht Hk. pose proof (taken_row_of st sid Ht) as Hr.
  unfold Staging.add_agent, Staging.insert_agent. rewrite Hk. simpl a_session_id. simpl a_name.
  rewrite Ht. eexists. split; [reflexivity|]. split.
  - unfold row_of, commit. simpl. rewrite find_map_sid.
    + unfold row_of in Hr. rewrite (find_app_none _ _ _ Hr). simpl.
      rewrite String.eqb_refl. simpl.
      destruct (find _ (pending st)) as [[? ?]|]; reflexivity.
    + intros r. destruct (find _ (pending st)) as [[? ?]|]; reflexivity.
  - unfold cache_get, cache_set. simpl.
    rewrite (find_app_none _ _ _ (cache_pop_find _ _)). simpl.
    rewrite String.eqb_refl. reflexivity.
Qed.

End AddAgentFacts.

(** C7 (counterexample): the plaintext ["1_1_..._1"] (1001 bytes) is not a
    decimal integer, but Python's [int()] accepts underscores between digits,
    so the key post is taken and an agent row is created. *)
Theorem stage1_python_accepts_underscores :
  Py.contains "_" (underscored 500) = true
  /\ String.length (underscored 500) = 1001%nat
  /\ Staging.taken state_abcd "PY000001" "PY000001" = false
  /\ let '(st', res) :=
       Staging.stage1_python enc_tag "gen" dh_key_of 5 "1234567890123456" state_abcd
         "PY000001" (underscored 500) "stagingkey" "1.2.3.4" "http" in
     res = Store.PyVal (Some "stagingkey:12345678901234565")
     /\ option_map Store.a_session_key (Store.row_of "PY000001" st') = Some "k81".
Proof.
  vm_compute. repeat split; reflexivity.
Qed.

(** C7 (amended): for a session id that no row holds as id or name, a Python key post whose
    plaintext has length outside [1000, 2500] or is refused by Python's
    [int()] (which also takes surrounding whitespace, a sign and single
    underscores between digits) returns the error string and leaves the
    cache and the [agents] table as they were; otherwise the agent row and
    the cache entry get the Diffie-Hellman key derived from the client's
    value, with the new nonce and the listener, and the reply is
    [aes_encrypt_then_hmac(stagingKey, nonce + str(serverPub))]. *)
Theorem stage1_python_outcome (aes_enc : string -> string -> string) (genkey : string)
    (dh_key : Z -> string) (dh_public : Z) (nonce : string) (st : Store.state)
    (sid message stagingKey clientIP listenerName : string) :
  Staging.taken st sid sid = false ->
  (forall z, dh_key z <> "") ->
  let '(st', res) :=
    Staging.stage1_python aes_enc genkey dh_key dh_public nonce st sid message stagingKey
      clientIP listenerName in
  (((String.length message < 1000)%nat \/ (2500 < String.length message)%nat
    \/ Py.int message = None) ->
   res = Store.PyVal (Some (Staging.python_key_error sid))
   /\ Store.db_agents st' = Store.db_agents st /\ Store.cache st' = Store.cache st)
  /\ (forall clientPub,
      (1000 <= String.length message <= 2500)%nat -> Py.int message = Some clientPub ->
      res = Store.PyVal (Some (aes_enc stagingKey (nonce ++ Py.str_of_Z dh_public)))
      /\ option_map (fun r => (Store.a_session_key r, Store.a_nonce r, Store.a_listener r))
           (Store.row_of sid st') = Some (dh_key clientPub, nonce, listenerName)
      /\ Store.cache_get sid st' = Some (dh_key clientPub)).
Proof.
  intros Hr Hk. unfold Staging.stage1_python. cbv zeta.
  destruct ((String.length message <? 1000)%nat || (2500 <? String.length message)%nat) eqn:E.
  - split; [intros _; repeat split; reflexivity|].
    intros cp [H1 H2] _. apply orb_true_iff in E.
    destruct E as [E|E]; [apply Nat.ltb_lt in E | apply Nat.ltb_lt in E]; lia.
  - apply orb_false_iff in E. destruct E as [E1 E2].
    apply Nat.ltb_ge in E1. apply Nat.ltb_ge in E2.
    destruct (Py.int message) as [cp|] eqn:Ei.
    + assert (Hk' : String.eqb (dh_key cp) "" = false) by (apply String.eqb_neq; apply Hk).
      destruct (add_agent_fresh genkey
                  (Store.emit st ("[*] Agent " ++ sid ++ " from " ++ clientIP
                                  ++ " posted valid Python PUB key"))
                  sid (dh_key cp) nonce listenerName "" Hr Hk')
        as [st' [Ha [Hrow Hc]]].
      rewrite Ha. split.
      * intros [H|[H|H]]; [lia | lia | discriminate].
      * intros cp' _ Hcp. injection Hcp as <-. repeat split; assumption.
    + split; [intros _; repeat split; reflexivity|].
      intros cp _ Hcp. discriminate.
Qed.

Lemma stage1_python_outcome_witness :
  Staging.taken state_abcd "PY000001" "PY000001" = false /\
  (forall z, dh_key_of z <> "") /\
  let '(st', res) :=
    Staging.stage1_python enc_tag "gen" dh_key_of 5 "1234567890123456" state_abcd
      "PY000001" (underscored 500) "stagingkey" "1.2.3.4" "http" in
  (((String.length (underscored 500) < 1000)%nat \/ (2500 < String.length (underscored 500))%nat
    \/ Py.int (underscored 500) = None) ->
   res = Store.PyVal (Some (Staging.python_key_error "PY000001"))
   /\ Store.db_agents st' = Store.db_agents state_abcd /\ Store.cache st' = Store.cache state_abcd)
  /\ (forall clientPub,
      (1000 <= String.length (underscored 500) <= 2500)%nat -> Py.int (underscored 500) = Some clientPub ->
      res = Store.PyVal (Some (enc_tag "stagingkey" ("1234567890123456" ++ Py.str_of_Z 5)))
      /\ option_map (fun r => (Store.a_session_key r, Store.a_nonce r, Store.a_listener r))
           (Store.row_of "PY000001" st') = Some (dh_key_of clientPub, "1234567890123456", "http")
      /\ Store.cache_get "PY000001" st' = Some (dh_key_of clientPub)).
Proof.
  split; [reflexivity|].
  split; [intros z; unfold dh_key_of; discriminate|].
  apply (stage1_python_outcome enc_tag "gen" dh_key_of 5 "1234567890123456" state_abcd
           "PY000001" (underscored 500) "stagingkey" "1.2.3.4" "http");
    [reflexivity | intros z; unfold dh_key_of; discriminate].
Defined.

(** ** Result posts *)

(** C6 (counterexample): a RESULT_POST body whose second packet fails to
    decode makes [handle_agent_response] return [None], but the first
    packet's result (task 1) stays written to the [results] table. *)
Theorem handle_agent_response_keeps_first_packet :
  let '(st', res) :=
    Inbound.handle_agent_response dec_plain parse_result_body Inbound.opcode_sysinfo_decode
      state_results "ABCD1234" "body" false in
  res = Store.PyVal None
  /\ Store.db_results state_results = [(1%Z, "ABCD1234", None); (2%Z, "ABCD1234", None)]
  /\ Store.db_results st'
     = [(1%Z, "ABCD1234", Some "short"); (2%Z, "ABCD1234", Some (String (ascii_of_nat 255) ""))].
Proof.
  vm_compute. repeat split; reflexivity.
Qed.

Section DispatchFacts.
Import Store Inbound.

(** A failing dispatch is the run of a prefix of the packets that all went
    through, followed by the packet that raised. *)
Lemma dispatch_all_fail
    (opcode : state -> string -> string -> Z -> string -> state * option string)
    (ps : list result_packet) :
  forall st sid st1 e,
  dispatch_all opcode st sid ps = (st1, Some e) ->
  exists k p stk, nth_error ps k = Some p
    /\ dispatch_all opcode st sid (firstn k ps) = (stk, None)
    /\ process_agent_packet opcode stk sid (r_name p) (r_task_id p) (r_data p) = (st1, Some e).
Proof.
  induction ps as [|p rest IH]; intros st sid st1 e H; [discriminate|].
  simpl in H.
  destruct (process_agent_packet opcode st sid (r_name p) (r_task_id p) (r_data p))
    as [st' [e'|]] eqn:Ep.
  - injection H as <- <-. exists 0%nat, p, st.
    split; [reflexivity|]. split; [reflexivity|exact Ep].
  - destruct (IH st' sid st1 e H) as [k [q [stk [Hn [Hd Hq]]]]].
    exists (S k), q, stk. split; [exact Hn|]. split; [|exact Hq].
    simpl. rewrite Ep. exact Hd.
Qed.

End DispatchFacts.

(** C6 (amended): after the last-seen update, a RESULT_POST body whose
    decryption or parsing fails leaves the state as it was apart from a
    warning, and [None] is returned; when a packet raises during dispatch,
    [None] is returned with a warning, but the state is the one left by the
    packets before it and the failing packet's own writes: the body is
    partially applied. *)
Theorem handle_agent_response_failure (dec : string -> string -> option string)
    (parse : string -> option (list Inbound.result_packet))
    (opcode : Store.state -> string -> string -> Z -> string -> Store.state * option string)
    (st st0 : Store.state) (sid enc key : string) (update_lastseen : bool) :
  Store.cache_get sid st = Some key ->
  (if update_lastseen then Inbound.update_agent_lastseen_db st sid else (st, Store.PyVal tt))
    = (st0, Store.PyVal tt) ->
  (dec key enc = None ->
   exists m, Inbound.handle_agent_response dec parse opcode st sid enc update_lastseen
             = (Store.emit st0 m, Store.PyVal None))
  /\ (forall packet, dec key enc = Some packet -> parse packet = None ->
      exists m, Inbound.handle_agent_response dec parse opcode st sid enc update_lastseen
                = (Store.emit st0 m, Store.PyVal None))
  /\ (forall packet ps st1 e, dec key enc = Some packet -> parse packet = Some ps ->
      Inbound.dispatch_all opcode st0 sid ps = (st1, Some e) ->
      Inbound.handle_agent_response dec parse opcode st sid enc update_lastseen
        = (Store.emit st1 ("[!] Error processing result packet from " ++ sid ++ " : " ++ e),
           Store.PyVal None)
      /\ exists k p stk, nth_error ps k = Some p
         /\ Inbound.dispatch_all opcode st0 sid (firstn k ps) = (stk, None)
         /\ Inbound.process_agent_packet opcode stk sid (Inbound.r_name p) (Inbound.r_task_id p)
              (Inbound.r_data p) = (st1, Some e)).
Proof.
  intros Hc Hl. unfold Inbound.handle_agent_response. rewrite Hc, Hl.
  cbv beta iota zeta. split; [|split].
  - intros Hd. rewrite Hd. eexists. reflexivity.
  - intros packet Hd Hp. rewrite Hd, Hp. eexists. reflexivity.
  - intros packet ps st1 e Hd Hp Hdis. rewrite Hd, Hp, Hdis. split; [reflexivity|].
    exact (dispatch_all_fail opcode ps st0 sid st1 e Hdis).
Qed.

Lemma handle_agent_response_failure_witness :
  Store.cache_get "ABCD1234" state_results = Some "key" /\
  (if false then Inbound.update_agent_lastseen_db state_results "ABCD1234"
   else (state_results, Store.PyVal tt)) = (state_results, Store.PyVal tt) /\
  (dec_plain "key" "body" = None ->
   exists m, Inbound.handle_agent_response dec_plain parse_result_body Inbound.opcode_sysinfo_decode
               state_results "ABCD1234" "body" false
             = (Store.emit state_results m, Store.PyVal None))
  /\ (forall packet, dec_plain "key" "body" = Some packet -> parse_result_body packet = None ->
      exists m, Inbound.handle_agent_response dec_plain parse_result_body Inbound.opcode_sysinfo_decode
                  state_results "ABCD1234" "body" false
                = (Store.emit state_results m, Store.PyVal None))
  /\ (forall packet ps st1 e, dec_plain "key" "body" = Some packet -> parse_result_body packet = Some ps ->
      Inbound.dispatch_all Inbound.opcode_sysinfo_decode state_results "ABCD1234" ps = (st1, Some e) ->
      Inbound.handle_agent_response dec_plain parse_result_body Inbound.opcode_sysinfo_decode
        state_results "ABCD1234" "body" false
        = (Store.emit st1 ("[!] Error processing result packet from " ++ "ABCD1234" ++ " : " ++ e),
           Store.PyVal None)
      /\ exists k p stk, nth_error ps k = Some p
         /\ Inbound.dispatch_all Inbound.opcode_sysinfo_decode state_results "ABCD1234" (firstn k ps)
            = (stk, None)
         /\ Inbound.process_agent_packet Inbound.opcode_sysinfo_decode stk "ABCD1234"
              (Inbound.r_name p) (Inbound.r_task_id p) (Inbound.r_data p) = (st1, Some e)).
Proof.
  split; [reflexivity|]. split; [reflexivity|].
  apply (handle_agent_response_failure dec_plain parse_result_body Inbound.opcode_sysinfo_decode
           state_results state_results "ABCD1234" "body" "key" false);
    reflexivity.
Defined.

(** ** Task ids *)

Section TaskIdFacts.
Import Store.

Lemma sql_max_snoc (l : list Z) (x : Z) :
  sql_max (l ++ [x]) = Some (match sql_max l with None => x | Some m => Z.max m x end).
Proof.
  destruct l as [|y t]; [reflexivity|].
  simpl. rewrite fold_left_app. reflexivity.
Qed.

Lemma get_agent_id_db_set_row (st st' : state) (sid : string) (v : option (list task)) :
  db_agents st' = set_row_taskings sid v (db_agents st) ->
  forall x, get_agent_id_db st' x = get_agent_id_db st x.
Proof.
  intros H x. unfold get_agent_id_db. rewrite H. clear H.
  induction (db_agents st) as [|r t IH]; [reflexivity|].
  simpl. destruct (String.eqb (a_session_id r) sid); simpl;
    destruct (String.eqb (a_name r) x); simpl; auto.
Qed.

Lemma resolve_same (st st' : state) (x : string) :
  (forall y, get_agent_id_db st' y = get_agent_id_db st y) -> resolve st' x = resolve st x.
Proof. intros H. unfold resolve. rewrite H. reflexivity. Qed.

(** One enqueue for a resolved, cached agent: the id is computed from the
    agent's [taskings] ids, and the new id joins them. *)
Lemma add_agent_task_db_step (st : state) (sid name task : string) :
  in_cache sid st = true -> resolve st sid = sid -> String.eqb sid "" = false ->
  let '(st', pk) := add_agent_task_db st sid name task in
  pk = Some (next_task_id (ids_for sid st))
  /\ cache st' = cache st
  /\ resolve st' sid = sid
  /\ ids_for sid st' = (ids_for sid st ++ [next_task_id (ids_for sid st)])%list.
Proof.
  intros Hc Hr He. unfold add_agent_task_db. rewrite Hr, Hc, He.
  cbn [negb]. split; [reflexivity|]. split; [reflexivity|]. split.
  - transitivity (resolve st sid); [|exact Hr].
    apply resolve_same. intros y. eapply get_agent_id_db_set_row. reflexivity.
  - unfold ids_for. simpl. rewrite filter_app, map_app. simpl.
    rewrite String.eqb_refl. reflexivity.
Qed.

(** A drain leaves the cache, the [agents] rows and the [taskings] rows as
    they were. *)
Lemma get_agent_tasks_db_keeps (st : state) (sid : string) :
  cache (fst (get_agent_tasks_db st sid)) = cache st
  /\ db_agents (fst (get_agent_tasks_db st sid)) = db_agents st
  /\ db_taskings (fst (get_agent_tasks_db st sid)) = db_taskings st.
Proof.
  unfold get_agent_tasks_db.
  destruct (negb _); [repeat split; reflexivity|].
  destruct (row_of _ _); [|repeat split; reflexivity].
  destruct (orm_taskings _ _); repeat split; reflexivity.
Qed.

Lemma enqueue_drain_ids (n : nat) :
  forall st sid name task,
  in_cache sid st = true -> resolve st sid = sid -> String.eqb sid "" = false ->
  snd (enqueue_drain n st sid name task) = map Some (id_run n (sql_max (ids_for sid st))).
Proof.
  induction n as [|k IH]; intros st sid name task Hc Hr He; [reflexivity|].
  cbn [enqueue_drain].
  pose proof (add_agent_task_db_step st sid name task Hc Hr He) as Hs.
  destruct (add_agent_task_db st sid name task) as [st1 pk].
  destruct Hs as [Hpk [Hc1 [Hr1 Hi1]]].
  destruct (get_agent_tasks_db_keeps st1 sid) as [Hc2 [Ha2 Ht2]].
  set (st2 := fst (get_agent_tasks_db st1 sid)) in *.
  assert (Hc2' : in_cache sid st2 = true).
  { unfold in_cache in *. rewrite Hc2, Hc1. exact Hc. }
  assert (Hr2 : resolve st2 sid = sid).
  { transitivity (resolve st1 sid); [|exact Hr1].
    unfold resolve, get_agent_id_db. rewrite Ha2. reflexivity. }
  assert (Hi2 : ids_for sid st2 = ids_for sid st1).
  { unfold ids_for. rewrite Ht2. reflexivity. }
  pose proof (IH st2 sid name task Hc2' Hr2 He) as IH2.
  destruct (enqueue_drain k st2 sid name task) as [st3 pks].
  simpl in IH2 |- *. rewrite Hpk, IH2, Hi2, Hi1, sql_max_snoc. reflexivity.
Qed.

End TaskIdFacts.

(** C4 (counterexample): enqueueing 65537 tasks to agent [ABCD1234] with a
    drain after each gives the 65537th task the id 0, not 1: the drain
    leaves the [taskings] rows in place, so [max(id)] stays 65535. *)
Theorem enqueue_drain_65537th_is_0 :
  nth 65534 (snd (enqueue_drain 65537 state_abcd "ABCD1234" "TASK_SHELL" "whoami")) None
    = Some 65535%Z
  /\ nth 65535 (snd (enqueue_drain 65537 state_abcd "ABCD1234" "TASK_SHELL" "whoami")) None
    = Some 0%Z
  /\ nth 65536 (snd (enqueue_drain 65537 state_abcd "ABCD1234" "TASK_SHELL" "whoami")) None
    = Some 0%Z.
Proof.
  rewrite enqueue_drain_ids by reflexivity.
  vm_compute. repeat split; reflexivity.
Qed.

(** C4 (amended): for a cached agent addressed by its session id, each
    enqueue returns [(max of the agent's [taskings] ids + 1) mod 65536]
    (1 when it has none); draining does not delete [taskings] rows, so from
    no rows 65537 enqueues with a drain between each give the ids
    1, 2, ..., 65535, 0, 0. *)
Theorem add_agent_task_db_ids (st : Store.state) (sid name task : string) :
  Store.in_cache sid st = true -> Store.resolve st sid = sid -> String.eqb sid "" = false ->
  snd (Store.add_agent_task_db st sid name task)
    = Some (((match Store.sql_max (Store.ids_for sid st) with None => 0 | Some m => m end)
             + 1) mod 65536)%Z
  /\ (Store.ids_for sid st = [] ->
      snd (enqueue_drain 65537 st sid name task)
        = map Some (zseq 1 65535 ++ [0%Z; 0%Z])%list).
Proof.
  intros Hc Hr He. split.
  - pose proof (add_agent_task_db_step st sid name task Hc Hr He) as Hs.
    destruct (Store.add_agent_task_db st sid name task) as [st' pk].
    exact (proj1 Hs).
  - intros Hi. rewrite (enqueue_drain_ids 65537 st sid name task Hc Hr He), Hi.
    change (Store.sql_max []) with (@None Z).
    assert (E : (if list_eq_dec Z.eq_dec (id_run 65537 None) (zseq 1 65535 ++ [0%Z; 0%Z])%list
                 then true else false) = true) by (vm_compute; reflexivity).
    destruct (list_eq_dec Z.eq_dec (id_run 65537 None) (zseq 1 65535 ++ [0%Z; 0%Z])%list)
      as [Heq|]; [rewrite Heq; reflexivity | discriminate].
Qed.

Lemma add_agent_task_db_ids_witness :
  Store.in_cache "ABCD1234" state_abcd = true
  /\ Store.resolve state_abcd "ABCD1234" = "ABCD1234"
  /\ String.eqb "ABCD1234" "" = false
  /\ snd (Store.add_agent_task_db state_abcd "ABCD1234" "TASK_SHELL" "whoami")
    = Some (((match Store.sql_max (Store.ids_for "ABCD1234" state_abcd) with
              | None => 0 | Some m => m end) + 1) mod 65536)%Z
  /\ (Store.ids_for "ABCD1234" state_abcd = [] ->
      snd (enqueue_drain 65537 state_abcd "ABCD1234" "TASK_SHELL" "whoami")
        = map Some (zseq 1 65535 ++ [0%Z; 0%Z])%list).
Proof.
  split; [reflexivity|]. split; [reflexivity|]. split; [reflexivity|].
  apply (add_agent_task_db_ids state_abcd "ABCD1234" "TASK_SHELL" "whoami");
    reflexivity.
Defined.

(** * Further properties of [Agents] *)

Lemma existsb_eqb_In (x : string) (l : list string) :
  existsb (String.eqb x) l = true <-> In x l.
Proof.
  rewrite existsb_exists. split.
  - intros [y [Hy E]]. apply String.eqb_eq in E. subst y. exact Hy.
  - intros H. exists x. split; [exact H|apply String.eqb_refl].
Qed.

(** X1: [is_ip_allowed] admits an address exactly when the white list is
    empty or holds it, and the black list does not hold it. *)
Theorem is_ip_allowed_iff (ipWhiteList ipBlackList : list string) (ip : string) :
  Access.is_ip_allowed ipWhiteList ipBlackList ip = true
  <-> (ipWhiteList = [] \/ In ip ipWhiteList) /\ ~ In ip ipBlackList.
Proof.
  unfold Access.is_ip_allowed.
  destruct ipBlackList as [|b bl], ipWhiteList as [|w wl].
  - simpl. tauto.
  - rewrite existsb_eqb_In. split.
    + intros H. split; [right; exact H|intros []].
    + intros [[H|H] _]; [discriminate|exact H].
  - rewrite negb_true_iff, <- not_true_iff_false, existsb_eqb_In. tauto.
  - rewrite andb_true_iff, negb_true_iff, <- not_true_iff_false, !existsb_eqb_In.
    split.
    + intros [H1 H2]. split; [right; exact H1|exact H2].
    + intros [[H|H] H2]; [discriminate|split; assumption].
Qed.

Section PresenceFacts.
Import Store.

Lemma in_cache_none (sid : string) (st : state) :
  cache_get sid st = None -> in_cache sid st = false.
Proof.
  unfold cache_get, in_cache. induction (cache st) as [|p t IH]; [reflexivity|].
  simpl. destruct (String.eqb (fst p) sid); [discriminate|]. exact IH.
Qed.

Lemma in_cache_some (sid k : string) (st : state) :
  cache_get sid st = Some k -> in_cache sid st = true.
Proof.
  unfold cache_get, in_cache. induction (cache st) as [|p t IH]; [discriminate|].
  simpl. destruct (String.eqb (fst p) sid); [reflexivity|]. exact IH.
Qed.

Lemma names_own_remove (st : state) (sid x : string) :
  names_own st sid -> names_own (remove_agent_db st x) sid.
Proof.
  intros H r Hin Hn. apply H; [|exact Hn].
  unfold remove_agent_db in Hin.
  destruct (String.eqb x "%" || String.eqb (Py.lower x) "all"); simpl in Hin;
    apply filter_In in Hin; exact (proj1 Hin).
Qed.

End PresenceFacts.

(** X2: once [remove_agent_db(sid)] has run for an agent whose name is
    only used by itself, [is_agent_present(sid)] is false. *)
Theorem is_agent_present_after_remove (st : Store.state) (sid : string) :
  Store.names_own st sid ->
  Queries.is_agent_present (Store.remove_agent_db st sid) sid = false.
Proof.
  intros H. unfold Queries.is_agent_present.
  rewrite (resolve_own _ _ (names_own_remove st sid sid H)).
  apply in_cache_none. exact (proj1 (remove_agent_db_gone st sid H)).
Qed.

Lemma is_agent_present_after_remove_witness :
  Store.names_own state_abcd "ABCD1234"
  /\ Queries.is_agent_present state_abcd "ABCD1234" = true
  /\ Queries.is_agent_present (Store.remove_agent_db state_abcd "ABCD1234") "ABCD1234" = false.
Proof.
  split; [exact names_own_abcd|]. split; [reflexivity|].
  apply (is_agent_present_after_remove state_abcd "ABCD1234"). exact names_own_abcd.
Defined.

Section AddPresenceFacts.
Import Store.

Lemma commit_in (st : state) (r : agent_row) :
  In r (db_agents (commit st)) ->
  exists r0, In r0 (db_agents st) /\ a_session_id r = a_session_id r0 /\ a_name r = a_name r0.
Proof.
  unfold commit. simpl. intros H. apply in_map_iff in H. destruct H as [r0 [E Hin]].
  exists r0. split; [exact Hin|]. subst r.
  destruct (find _ (pending st)) as [[? ?]|]; split; reflexivity.
Qed.

Lemma add_agent_names_own (genkey : string) (st st' : state)
    (sid key nonce listener language : string) :
  Staging.taken st sid sid = false ->
  Staging.add_agent genkey st sid key nonce listener language = (st', PyVal tt) ->
  names_own st' sid.
Proof.
  intros Ht Heq. unfold Staging.add_agent, Staging.insert_agent in Heq.
  simpl a_session_id in Heq. simpl a_name in Heq. rewrite Ht in Heq.
  injection Heq as <-. intros r Hin Hn. cbn [db_agents set_cache emit] in Hin.
  apply commit_in in Hin. destruct Hin as [r0 [Hin [Hid Hnm]]]. simpl in Hin.
  apply in_app_or in Hin. destruct Hin as [Hin|[<-|[]]].
  - exfalso. unfold Staging.taken in Ht.
    assert (Hx : existsb (fun x => String.eqb (a_session_id x) sid || String.eqb (a_name x) sid)
                   (db_agents st) = true).
    { apply existsb_exists. exists r0. split; [exact Hin|].
      rewrite <- Hnm, Hn, String.eqb_refl. apply orb_true_r. }
    rewrite Hx in Ht. discriminate.
  - rewrite Hid. reflexivity.
Qed.

End AddPresenceFacts.

(** X3: [add_agent] for a session id that no row holds as id or name, with
    a non-empty key, succeeds and makes [is_agent_present(sid)] true. *)
Theorem is_agent_present_after_add (genkey : string) (st : Store.state)
    (sid key nonce listener language : string) :
  Staging.taken st sid sid = false -> String.eqb key "" = false ->
  exists st', Staging.add_agent genkey st sid key nonce listener language = (st', Store.PyVal tt)
    /\ Queries.is_agent_present st' sid = true.
Proof.
  intros Ht Hk.
  destruct (add_agent_fresh genkey st sid key nonce listener language Ht Hk)
    as [st' [Heq [_ Hc]]].
  exists st'. split; [exact Heq|]. unfold Queries.is_agent_present.
  rewrite (resolve_own _ _ (add_agent_names_own genkey st st' sid key nonce listener language Ht Heq)).
  exact (in_cache_some _ _ _ Hc).
Qed.

Lemma is_agent_present_after_add_witness :
  Staging.taken state_abcd "EFGH5678" "EFGH5678" = false /\ String.eqb "k2" "" = false
  /\ Queries.is_agent_present state_abcd "EFGH5678" = false
  /\ exists st', Staging.add_agent "gen" state_abcd "EFGH5678" "k2" "42" "http" "python"
                 = (st', Store.PyVal tt)
    /\ Queries.is_agent_present st' "EFGH5678" = true.
Proof.
  split; [reflexivity|]. split; [reflexivity|]. split; [reflexivity|].
  apply (is_agent_present_after_add "gen" state_abcd "EFGH5678" "k2" "42" "http" "python");
    reflexivity.
Defined.

Section RequestFacts.
Import Store.

(** After a commit no deletion is pending. *)
Lemma committed_commit (st : state) : committed_agents (commit st) = db_agents (commit st).
Proof.
  unfold committed_agents. replace (orm_deleted (commit st)) with (@nil agent_row) by reflexivity.
  apply app_nil_r.
Qed.

(** [commit] writes the ORM view of every row's [taskings]. *)
Lemma commit_eq (st : state) :
  commit st = set_deleted (set_pending (set_agents st
                (map (fun r => Queries.with_taskings r (orm_taskings st r)) (db_agents st))) []) [].
Proof.
  unfold commit, Queries.with_taskings, orm_taskings. cbv zeta.
  f_equal. f_equal. f_equal. apply map_ext. intros r.
  destruct (find _ (pending st)) as [[? ?]|]; [reflexivity|destruct r; reflexivity].
Qed.

Lemma names_own_commit (st : state) (sid : string) :
  names_own st sid -> names_own (commit st) sid.
Proof.
  intros H r Hin Hn. destruct (commit_in st r Hin) as [r0 [Hin0 [Hid Hnm]]].
  rewrite Hid. apply H; [exact Hin0|]. rewrite <- Hnm. exact Hn.
Qed.

Lemma row_of_commit (st : state) (sid : string) (r : agent_row) :
  row_of sid st = Some r ->
  row_of sid (commit st) = Some (Queries.with_taskings r (orm_taskings st r)).
Proof.
  intros H. rewrite commit_eq. unfold row_of in *. cbn [db_agents set_deleted set_pending set_agents].
  rewrite find_map_sid; [rewrite H; reflexivity|].
  intros x. reflexivity.
Qed.

End RequestFacts.

Section ListenerFacts.
Import Store.






End ListenerFacts.


Section SplitJoin.

Lemma split_nonempty (sep : ascii) (s : string) : exists h t, Py.split sep s = h :: t.
Proof.
  induction s as [|c s [h [t IH]]]; [exists "", []; reflexivity|].
  simpl. rewrite IH. destruct (Ascii.eqb c sep); eauto.
Qed.

Lemma append_empty_r (s : string) : (s ++ "")%string = s.
Proof. induction s as [|c s IH]; simpl; [reflexivity|rewrite IH; reflexivity]. Qed.

Lemma split_app (sep : ascii) (x s : string) :
  Py.contains (String sep "") x = false ->
  Py.split sep (x ++ s) = (x ++ hd "" (Py.split sep s))%string :: tl (Py.split sep s).
Proof.
  induction x as [|c x IH]; intros H.
  - destruct (split_nonempty sep s) as [h [t E]]. change ("" ++ s)%string with s.
    rewrite E. reflexivity.
  - simpl in H. apply orb_false_iff in H. destruct H as [Hp Hc].
    simpl. rewrite (IH Hc).
    replace (Ascii.eqb c sep) with false; [reflexivity|].
    symmetry. apply Ascii.eqb_neq. intros E. rewrite E in Hp.
    destruct (ascii_dec sep sep) as [_|n];
      [destruct x; simpl in Hp; discriminate|exact (n eq_refl)].
Qed.

(** [','.join(l).split(',')] gives back a non-empty list of names free of
    commas. *)
Lemma split_join (sep : ascii) (l : list string) :
  l <> [] -> Forall (fun f => Py.contains (String sep "") f = false) l ->
  Py.split sep (Py.join (String sep "") l) = l.
Proof.
  unfold Py.join. induction l as [|x l IH]; intros Hne Hf; [contradiction|].
  inversion Hf as [|? ? Hx Hl]; subst.
  destruct l as [|y l].
  - simpl. rewrite <- (append_empty_r x) at 1. rewrite (split_app sep x "" Hx).
    simpl. rewrite append_empty_r. reflexivity.
  - change (String.concat (String sep "") (x :: y :: l))
      with (x ++ String sep (String.concat (String sep "") (y :: l)))%string.
    rewrite (split_app sep x _ Hx). cbn [Py.split hd tl]. rewrite Ascii.eqb_refl.
    cbn [hd tl]. rewrite append_empty_r.
    rewrite IH; [reflexivity|discriminate|exact Hl].
Qed.

End SplitJoin.

Section FunctionsFacts.
Import Store.

Lemma assoc_get_put {A : Type} (k : string) (v : A) (l : list (string * A)) :
  Assoc.get k (Assoc.put k v l) = Some v.
Proof.
  unfold Assoc.get, Assoc.put. rewrite find_app_none.
  - simpl. rewrite String.eqb_refl. reflexivity.
  - induction l as [|[k' v'] t IH]; [reflexivity|]. simpl.
    destruct (String.eqb k' k) eqn:E; simpl; [exact IH|]. rewrite E. exact IH.
Qed.

(** The first row whose id or name is [sid] is the agent [sid] itself. *)
Lemma find_id_or_name (st : state) (sid : string) (r : agent_row) :
  names_own st sid -> row_of sid st = Some r ->
  exists r', find (fun x => String.eqb (a_session_id x) sid || String.eqb (a_name x) sid)
               (db_agents st) = Some r' /\ a_session_id r' = sid.
Proof.
  intros Ho Hr. unfold row_of in Hr. apply find_some in Hr. destruct Hr as [Hin E].
  destruct (find _ (db_agents st)) as [r'|] eqn:F.
  - exists r'. split; [reflexivity|]. apply find_some in F. destruct F as [Hin' F].
    apply orb_true_iff in F. destruct F as [F|F]; apply String.eqb_eq in F;
      [exact F|exact (Ho r' Hin' F)].
  - exfalso. pose proof (find_none _ _ F r Hin) as N. simpl in N.
    rewrite E in N. discriminate.
Qed.

Lemma assoc_get_rows {B : Type} (g : agent_row -> B) (k : string) (rows : list agent_row) :
  Assoc.get k (map (fun r => (a_session_id r, g r)) rows)
  = option_map g (find (fun r => String.eqb (a_session_id r) k) rows).
Proof.
  unfold Assoc.get. induction rows as [|r t IH]; [reflexivity|].
  simpl. destruct (String.eqb (a_session_id r) k); [reflexivity|exact IH].
Qed.

Lemma set_agent_functions_db_ok (fs : AgentFunctions.fstate) (sid : string) (r : agent_row)
    (functions : list string) :
  names_own (AgentFunctions.base fs) sid -> row_of sid (AgentFunctions.base fs) = Some r ->
  AgentFunctions.set_agent_functions_db fs sid functions
  = (AgentFunctions.mk_fstate (commit (AgentFunctions.base fs))
       (if in_cache sid (AgentFunctions.base fs)
        then Assoc.put sid (AgentFunctions.FList functions) (AgentFunctions.fn_cache fs)
        else AgentFunctions.fn_cache fs)
       (Assoc.put sid (Some (Py.join "," functions)) (AgentFunctions.fn_column fs)),
     PyVal tt).
Proof.
  intros Ho Hr. unfold AgentFunctions.set_agent_functions_db.
  rewrite (resolve_own _ _ Ho), Hr. reflexivity.
Qed.

End FunctionsFacts.

(** X6: after [set_agent_functions_db(sid, functions)] for an existing
    agent, [get_agent_functions_db(sid)] gives back [functions] when it is
    non-empty and no name holds a comma, and [['']] for an empty list. *)
Theorem agent_functions_db_round_trip (fs : AgentFunctions.fstate) (sid : string)
    (r : Store.agent_row) (functions : list string) :
  Store.names_own (AgentFunctions.base fs) sid ->
  Store.row_of sid (AgentFunctions.base fs) = Some r ->
  Forall (fun f => Py.contains "," f = false) functions ->
  let '(fs', res) := AgentFunctions.set_agent_functions_db fs sid functions in
  res = Store.PyVal tt
  /\ AgentFunctions.get_agent_functions_db fs' sid
     = Store.PyVal (match functions with [] => [""] | _ => functions end).
Proof.
  intros Ho Hr Hf. rewrite (set_agent_functions_db_ok fs sid r functions Ho Hr).
  split; [reflexivity|].
  unfold AgentFunctions.get_agent_functions_db. cbn [AgentFunctions.base AgentFunctions.fn_column].
  destruct (find_id_or_name (Store.commit (AgentFunctions.base fs)) sid
              (Queries.with_taskings r (Store.orm_taskings (AgentFunctions.base fs) r))
              (names_own_commit _ _ Ho) (row_of_commit _ _ _ Hr)) as [r' [F Hid]].
  rewrite F, Hid, assoc_get_put.
  destruct functions as [|f l]; [reflexivity|].
  f_equal. apply split_join; [discriminate|exact Hf].
Qed.

Lemma agent_functions_db_round_trip_witness :
  Store.names_own (AgentFunctions.base (AgentFunctions.mk_fstate state_abcd [] [])) "ABCD1234"
  /\ Store.row_of "ABCD1234" (AgentFunctions.base (AgentFunctions.mk_fstate state_abcd [] []))
     = Some agent_abcd
  /\ Forall (fun f => Py.contains "," f = false) ["Invoke-Mimikatz"; "Get-Keystrokes"]
  /\ let '(fs', res) := AgentFunctions.set_agent_functions_db
                          (AgentFunctions.mk_fstate state_abcd [] []) "ABCD1234"
                          ["Invoke-Mimikatz"; "Get-Keystrokes"] in
     res = Store.PyVal tt
     /\ AgentFunctions.get_agent_functions_db fs' "ABCD1234"
        = Store.PyVal ["Invoke-Mimikatz"; "Get-Keystrokes"].
Proof.
  split; [exact names_own_abcd|]. split; [reflexivity|].
  split; [repeat constructor|].
  exact (agent_functions_db_round_trip (AgentFunctions.mk_fstate state_abcd [] []) "ABCD1234"
           agent_abcd ["Invoke-Mimikatz"; "Get-Keystrokes"] names_own_abcd eq_refl
           ltac:(repeat constructor)).
Defined.

(** X7: after [set_agent_functions_db(sid, functions)] for a cached agent,
    [get_agent_functions(sid)] returns the list itself; after a restart it
    returns the raw comma-joined [functions] column instead, which
    [Agents.__init__] copies without splitting. *)
Theorem agent_functions_after_restart (fs : AgentFunctions.fstate) (sid : string)
    (r : Store.agent_row) (functions : list string) :
  Store.names_own (AgentFunctions.base fs) sid ->
  Store.in_cache sid (AgentFunctions.base fs) = true ->
  Store.row_of sid (AgentFunctions.base fs) = Some r ->
  let fs' := fst (AgentFunctions.set_agent_functions_db fs sid functions) in
  AgentFunctions.get_agent_functions fs' sid = Store.PyVal (AgentFunctions.FList functions)
  /\ AgentFunctions.get_agent_functions (AgentFunctions.restart fs') sid
     = Store.PyVal (AgentFunctions.FColumn (Some (Py.join "," functions))).
Proof.
  intros Ho Hc Hr fs'. unfold fs'.
  rewrite (set_agent_functions_db_ok fs sid r functions Ho Hr), Hc. cbn [fst].
  set (b := AgentFunctions.base fs) in *.
  pose proof (names_own_commit b sid Ho) as Ho'.
  pose proof (row_of_commit b sid r Hr) as Hr'.
  set (r' := Queries.with_taskings r (Store.orm_taskings b r)) in Hr'.
  assert (Hid : Store.a_session_id r' = sid).
  { unfold Store.row_of in Hr'. apply find_some in Hr'. apply String.eqb_eq, Hr'. }
  split.
  - unfold AgentFunctions.get_agent_functions. cbn [AgentFunctions.base AgentFunctions.fn_cache].
    rewrite (resolve_own _ _ Ho').
    replace (Store.in_cache sid (Store.commit b)) with (Store.in_cache sid b) by reflexivity.
    rewrite Hc, assoc_get_put. reflexivity.
  - unfold AgentFunctions.get_agent_functions, AgentFunctions.restart.
    cbn [AgentFunctions.base AgentFunctions.fn_cache AgentFunctions.fn_column].
    unfold Store.restart. rewrite committed_commit.
    set (R := Store.mk_state _ _ _ _ _ _ _).
    assert (Hro : Store.names_own R sid) by exact Ho'.
    rewrite (resolve_own _ _ Hro).
    assert (Hin : Store.in_cache sid R = true).
    { unfold Store.in_cache, R. cbn [Store.cache].
      unfold Store.row_of in Hr'. apply find_some in Hr'. destruct Hr' as [Hin E].
      apply existsb_exists. exists (Store.a_session_id r', Store.a_session_key r').
      split; [apply in_map_iff; exists r'; split; [reflexivity|exact Hin]|exact E]. }
    rewrite Hin.
    rewrite (assoc_get_rows (fun x => AgentFunctions.FColumn
               (match Assoc.get (Store.a_session_id x)
                        (Assoc.put sid (Some (Py.join "," functions)) (AgentFunctions.fn_column fs))
                with Some c => c | None => None end))).
    unfold Store.row_of in Hr'. rewrite Hr'. cbn [option_map].
    rewrite Hid, assoc_get_put. reflexivity.
Qed.

Lemma agent_functions_after_restart_witness :
  Store.names_own (AgentFunctions.base (AgentFunctions.mk_fstate state_abcd [] [])) "ABCD1234"
  /\ Store.in_cache "ABCD1234" (AgentFunctions.base (AgentFunctions.mk_fstate state_abcd [] []))
     = true
  /\ Store.row_of "ABCD1234" (AgentFunctions.base (AgentFunctions.mk_fstate state_abcd [] []))
     = Some agent_abcd
  /\ AgentFunctions.get_agent_functions
       (fst (AgentFunctions.set_agent_functions_db (AgentFunctions.mk_fstate state_abcd [] [])
               "ABCD1234" ["Invoke-Mimikatz"; "Get-Keystrokes"])) "ABCD1234"
     = Store.PyVal (AgentFunctions.FList ["Invoke-Mimikatz"; "Get-Keystrokes"])
  /\ AgentFunctions.get_agent_functions (AgentFunctions.restart
       (fst (AgentFunctions.set_agent_functions_db (AgentFunctions.mk_fstate state_abcd [] [])
               "ABCD1234" ["Invoke-Mimikatz"; "Get-Keystrokes"]))) "ABCD1234"
     = Store.PyVal (AgentFunctions.FColumn (Some "Invoke-Mimikatz,Get-Keystrokes")).
Proof.
  split; [exact names_own_abcd|]. split; [reflexivity|]. split; [reflexivity|].
  exact (agent_functions_after_restart (AgentFunctions.mk_fstate state_abcd [] []) "ABCD1234"
           agent_abcd ["Invoke-Mimikatz"; "Get-Keystrokes"] names_own_abcd eq_refl eq_refl).
Defined.

(** X8: [get_autoruns_db()] returns what [set_autoruns_db] stored when the
    [config] table has a row; on an empty table the update is lost and
    both values read back as ['']; after [clear_autoruns_db()] both are
    [''] either way. *)
Theorem autoruns_set_clear_get (cfg : Config.config) (taskCommand moduleData : string) :
  Config.get_autoruns_db (Config.set_autoruns_db cfg taskCommand moduleData)
  = match cfg with
    | [] => [Some ""; Some ""]
    | _ :: _ => [Some taskCommand; Some moduleData]
    end
  /\ Config.get_autoruns_db (Config.clear_autoruns_db cfg) = [Some ""; Some ""].
Proof. destruct cfg as [|row rest]; split; reflexivity. Qed.

Section ResultsFacts.
Import Store.

Variable json_dumps : string -> string.
Variable json_loads : string -> option string.

Lemma update_agent_results_db_ok (rs : AgentResults.rstate) (sid results : string) (r : agent_row) :
  names_own (AgentResults.rbase rs) sid -> in_cache sid (AgentResults.rbase rs) = true ->
  row_of sid (AgentResults.rbase rs) = Some r ->
  AgentResults.update_agent_results_db json_dumps rs sid results
  = (AgentResults.mk_rstate (commit (AgentResults.rbase rs))
       (Assoc.put sid (json_dumps (AgentResults.results_of sid rs ++ String "010" results))
          (AgentResults.results_col rs)), PyVal tt).
Proof.
  intros Ho Hc Hr. unfold AgentResults.update_agent_results_db.
  rewrite (resolve_own _ _ Ho), Hc, Hr. reflexivity.
Qed.

Lemma get_agent_results_db_ok (rs : AgentResults.rstate) (sid : string) (r : agent_row) :
  names_own (AgentResults.rbase rs) sid -> in_cache sid (AgentResults.rbase rs) = true ->
  row_of sid (AgentResults.rbase rs) = Some r ->
  AgentResults.get_agent_results_db json_loads rs sid
  = let rs' := AgentResults.mk_rstate (commit (AgentResults.rbase rs))
                 (Assoc.put sid "" (AgentResults.results_col rs)) in
    if String.eqb (AgentResults.results_of sid rs) "" then (rs', PyVal (Some ""))
    else match json_loads (AgentResults.results_of sid rs) with
         | None => (rs', PyExc "JSONDecodeError")
         | Some out => (rs', PyVal (if String.eqb out "" then None else Some out))
         end.
Proof.
  intros Ho Hc Hr. unfold AgentResults.get_agent_results_db.
  rewrite (resolve_own _ _ Ho), Hc, Hr. reflexivity.
Qed.

Lemma results_of_put (sid v : string) (rs : state) (col : list (string * string)) :
  AgentResults.results_of sid (AgentResults.mk_rstate rs (Assoc.put sid v col)) = v.
Proof. unfold AgentResults.results_of. cbn [AgentResults.results_col]. rewrite assoc_get_put. reflexivity. Qed.

End ResultsFacts.

(** X9: for a cached agent with no stored results, two calls of
    [update_agent_results_db] followed by [get_agent_results_db] return
    the first result still JSON-encoded, a newline, and the second one;
    the read clears the column, so the next read returns ['']. *)
Theorem agent_results_nested_encoding
    (json_dumps : string -> string) (json_loads : string -> option string)
    (rs : AgentResults.rstate) (sid : string) (r : Store.agent_row) (r1 r2 : string) :
  (forall s, json_loads (json_dumps s) = Some s) -> (forall s, json_dumps s <> "") ->
  Store.names_own (AgentResults.rbase rs) sid -> Store.in_cache sid (AgentResults.rbase rs) = true ->
  Store.row_of sid (AgentResults.rbase rs) = Some r ->
  AgentResults.results_of sid rs = "" ->
  let rs2 := fst (AgentResults.update_agent_results_db json_dumps
                   (fst (AgentResults.update_agent_results_db json_dumps rs sid r1)) sid r2) in
  let '(rs3, out) := AgentResults.get_agent_results_db json_loads rs2 sid in
  out = Store.PyVal (Some (json_dumps (String "010" r1) ++ String "010" r2))
  /\ snd (AgentResults.get_agent_results_db json_loads rs3 sid) = Store.PyVal (Some "").
Proof.
  intros Hj Hd Ho Hc Hr He rs2.
  set (b := AgentResults.rbase rs) in *.
  pose proof (names_own_commit b sid Ho) as Ho1.
  pose proof (row_of_commit b sid r Hr) as Hr1.
  set (r' := Queries.with_taskings r (Store.orm_taskings b r)) in Hr1.
  pose proof (names_own_commit _ sid Ho1) as Ho2.
  pose proof (row_of_commit _ sid r' Hr1) as Hr2.
  set (r'' := Queries.with_taskings r' _) in Hr2.
  pose proof (names_own_commit _ sid Ho2) as Ho3.
  pose proof (row_of_commit _ sid r'' Hr2) as Hr3.
  unfold rs2. rewrite (update_agent_results_db_ok json_dumps rs sid r1 r Ho Hc Hr).
  cbn [fst]. rewrite He.
  rewrite (update_agent_results_db_ok json_dumps (AgentResults.mk_rstate _ _) sid r2 r' Ho1 Hc Hr1).
  cbn [fst]. rewrite results_of_put.
  rewrite (get_agent_results_db_ok json_loads (AgentResults.mk_rstate _ _) sid r'' Ho2 Hc Hr2).
  rewrite results_of_put, Hj. cbv zeta.
  change ("" ++ String "010" r1)%string with (String "010" r1).
  replace (String.eqb (json_dumps (json_dumps (String "010" r1) ++ String "010" r2)) "")
    with false by (symmetry; apply String.eqb_neq, Hd).
  destruct (String.eqb (json_dumps (String "010" r1) ++ String "010" r2) "") eqn:E.
  - exfalso. apply String.eqb_eq in E.
    destruct (json_dumps (String "010" r1)); discriminate.
  - split; [reflexivity|].
    rewrite (get_agent_results_db_ok json_loads (AgentResults.mk_rstate _ _) sid _ Ho3 Hc Hr3).
    rewrite results_of_put. reflexivity.
Qed.

Lemma agent_results_nested_encoding_witness :
  (forall s, json_untag (json_tag s) = Some s) /\ (forall s, json_tag s <> "")
  /\ Store.names_own (AgentResults.rbase (AgentResults.mk_rstate state_abcd [])) "ABCD1234"
  /\ Store.in_cache "ABCD1234" (AgentResults.rbase (AgentResults.mk_rstate state_abcd [])) = true
  /\ Store.row_of "ABCD1234" (AgentResults.rbase (AgentResults.mk_rstate state_abcd []))
     = Some agent_abcd
  /\ AgentResults.results_of "ABCD1234" (AgentResults.mk_rstate state_abcd []) = ""
  /\ let '(rs3, out) := AgentResults.get_agent_results_db json_untag
          (fst (AgentResults.update_agent_results_db json_tag
                  (fst (AgentResults.update_agent_results_db json_tag
                          (AgentResults.mk_rstate state_abcd []) "ABCD1234" "uid=0"))
                  "ABCD1234" "done")) "ABCD1234" in
     out = Store.PyVal (Some (json_tag (String "010" "uid=0") ++ String "010" "done"))
     /\ snd (AgentResults.get_agent_results_db json_untag rs3 "ABCD1234") = Store.PyVal (Some "").
Proof.
  assert (Hj : forall s, json_untag (json_tag s) = Some s) by (intros s; reflexivity).
  assert (Hd : forall s, json_tag s <> "") by (intros s; discriminate).
  split; [exact Hj|]. split; [exact Hd|]. split; [exact names_own_abcd|].
  split; [reflexivity|]. split; [reflexivity|]. split; [reflexivity|].
  exact (agent_results_nested_encoding json_tag json_untag (AgentResults.mk_rstate state_abcd [])
           "ABCD1234" agent_abcd "uid=0" "done" Hj Hd names_own_abcd eq_refl eq_refl eq_refl).
Defined.

Section LogFacts.
Import Store.

Lemma string_app_assoc (a b c : string) : ((a ++ b) ++ c)%string = (a ++ (b ++ c))%string.
Proof. induction a as [|x a IH]; simpl; [reflexivity|rewrite IH; reflexivity]. Qed.

Lemma find_all_false {A : Type} (f : A -> bool) (l : list A) :
  (forall x, In x l -> f x = false) -> find f l = None.
Proof.
  induction l as [|x t IH]; intros H; [reflexivity|].
  simpl. rewrite (H x (or_introl eq_refl)). apply IH. intros y Hy. apply H. right. exact Hy.
Qed.

Lemma get_agent_name_db_removed (st : state) (sid : string) :
  names_own st sid -> Queries.get_agent_name_db (remove_agent_db st sid) sid = None.
Proof.
  intros Ho. unfold Queries.get_agent_name_db.
  assert (Hrows : forall x, In x (db_agents (remove_agent_db st sid)) ->
                  In x (db_agents st) /\ a_session_id x <> sid).
  { intros x Hx. unfold remove_agent_db in Hx.
    destruct (String.eqb sid "%" || String.eqb (Py.lower sid) "all"); simpl in Hx;
      apply filter_In in Hx; destruct Hx as [Hin Hl]; split; try exact Hin;
      intros E; rewrite E in Hl.
    - pose proof (like_percent sid) as P. simpl in P. rewrite P in Hl. discriminate.
    - rewrite (resolve_own st sid Ho), like_refl in Hl. discriminate. }
  rewrite find_all_false; [reflexivity|].
  intros x Hx. destruct (Hrows x Hx) as [Hin Hid].
  apply orb_false_iff. split; apply String.eqb_neq; [exact Hid|].
  intros Hn. exact (Hid (Ho x Hin Hn)).
Qed.

End LogFacts.

(** X10: once an agent is removed, [save_agent_log] for its session id
    appends the entry to [<installPath>/downloads/None/agent.log]: the name
    lookup finds no row and [str(None)] is used as the folder. *)
Theorem save_agent_log_after_remove (cwd installPath current_time : string)
    (st : Store.state) (sid data : string) (files : list (string * string)) :
  Store.names_own st sid ->
  let target := PosixPath.abspath cwd (installPath ++ "/downloads/None//agent.log") in
  Files.file_get target
    (AgentLog.save_agent_log cwd installPath current_time (Store.remove_agent_db st sid) sid data files)
  = Some (match Files.file_get target files with Some c => c | None => "" end
          ++ String "010" current_time ++ " : " ++ String "010" (data ++ String "010" "")).
Proof.
  intros Ho target. unfold AgentLog.save_agent_log.
  rewrite (get_agent_name_db_removed st sid Ho).
  replace ((installPath ++ "/downloads/" ++ "None" ++ "/") ++ "/agent.log")%string
    with (installPath ++ "/downloads/None//agent.log")%string
    by (rewrite string_app_assoc; reflexivity).
  apply file_get_put.
Qed.

Lemma save_agent_log_after_remove_witness :
  Store.names_own state_abcd "ABCD1234"
  /\ Files.file_get "/opt/empire/downloads/None/agent.log"
       (AgentLog.save_agent_log "/opt/empire" "/opt/empire" "2020-01-01 00:00:00"
          (Store.remove_agent_db state_abcd "ABCD1234") "ABCD1234" "whoami" [])
     = Some (String "010" "2020-01-01 00:00:00" ++ " : " ++ String "010" ("whoami" ++ String "010" "")).
Proof.
  split; [exact names_own_abcd|].
  exact (save_agent_log_after_remove "/opt/empire" "/opt/empire" "2020-01-01 00:00:00"
           state_abcd "ABCD1234" "whoami" [] names_own_abcd).
Defined.

Section KeylogFacts.
Import Store.

Lemma like_keystrokes (rest : string) :
  like "function Get-Keystrokes%" ("function Get-Keystrokes" ++ rest) = true.
Proof. simpl. pose proof (like_percent rest) as P. simpl in P. exact P. Qed.

End KeylogFacts.

(** X11: a result for a keylogger task (its [taskings] row starts with
    [function Get-Keystrokes]) is stored twice: [UPDATE ... SET data=?]
    is followed by [SET data=data||?], so the opcode handler sees every
    [results] row of the task holding [data ++ data]. *)
Theorem process_agent_packet_keylog_doubles
    (opcode : Store.state -> string -> string -> Z -> string -> Store.state * option string)
    (st : Store.state) (sid responseName : string) (taskID : Z) (data rest : string) :
  Store.names_own st sid -> taskID <> 0%Z -> ~ In responseName Inbound.file_opcodes ->
  In (taskID, sid, "function Get-Keystrokes" ++ rest) (Store.db_taskings st) ->
  exists st', Inbound.process_agent_packet opcode st sid responseName taskID data
              = opcode st' sid responseName taskID data
    /\ Store.db_results st'
       = map (fun r => if (fst (fst r) =? taskID)%Z && String.eqb (snd (fst r)) sid
                       then (fst r, Some (data ++ data)) else r) (Store.db_results st)
    /\ Store.db_agents st' = Store.db_agents st.
Proof.
  intros Ho Ht Hn Hk. unfold Inbound.process_agent_packet.
  rewrite (resolve_own st sid Ho).
  replace (negb (taskID =? 0)%Z) with true
    by (symmetry; apply negb_true_iff, Z.eqb_neq, Ht).
  replace (existsb (String.eqb responseName) Inbound.file_opcodes) with false
    by (symmetry; apply not_true_iff_false; rewrite existsb_eqb_In; exact Hn).
  cbn [negb andb].
  replace (Inbound.keylog_task _ sid taskID) with true.
  - eexists. split; [reflexivity|]. split; [|reflexivity].
    cbn [Inbound.set_results Store.db_results Store.emit].
    unfold Inbound.append_results, Inbound.update_results. rewrite map_map.
    apply map_ext. intros r.
    destruct ((fst (fst r) =? taskID)%Z && String.eqb (snd (fst r)) sid) eqn:E;
      [|rewrite E; reflexivity].
    simpl. rewrite E. reflexivity.
  - symmetry. unfold Inbound.keylog_task. apply existsb_exists.
    exists (taskID, sid, ("function Get-Keystrokes" ++ rest)%string). split; [exact Hk|].
    simpl. rewrite Z.eqb_refl, String.eqb_refl. apply like_keystrokes.
Qed.

Lemma process_agent_packet_keylog_doubles_witness :
  Store.names_own (Store.mk_state [("ABCD1234", "key")] [agent_abcd]
    [(1%Z, "ABCD1234", "function Get-Keystrokes -LogPath x")]
    [(1%Z, "ABCD1234", None)] [] [] []) "ABCD1234"
  /\ 1%Z <> 0%Z
  /\ ~ In "TASK_CMD_JOB" Inbound.file_opcodes
  /\ In (1%Z, "ABCD1234", "function Get-Keystrokes" ++ " -LogPath x")
        (Store.db_taskings (Store.mk_state [("ABCD1234", "key")] [agent_abcd]
           [(1%Z, "ABCD1234", "function Get-Keystrokes -LogPath x")]
           [(1%Z, "ABCD1234", None)] [] [] []))
  /\ exists st', Inbound.process_agent_packet (fun st _ _ _ _ => (st, None))
                   (Store.mk_state [("ABCD1234", "key")] [agent_abcd]
                      [(1%Z, "ABCD1234", "function Get-Keystrokes -LogPath x")]
                      [(1%Z, "ABCD1234", None)] [] [] [])
                   "ABCD1234" "TASK_CMD_JOB" 1 "keys"
                 = (st', None)
       /\ Store.db_results st' = [(1%Z, "ABCD1234", Some "keyskeys")]
       /\ Store.db_agents st' = [agent_abcd].
Proof.
  assert (Ho : Store.names_own (Store.mk_state [("ABCD1234", "key")] [agent_abcd]
           [(1%Z, "ABCD1234", "function Get-Keystrokes -LogPath x")]
           [(1%Z, "ABCD1234", None)] [] [] []) "ABCD1234").
  { intros r Hin _. destruct Hin as [<-|[]]. reflexivity. }
  split; [exact Ho|]. split; [discriminate|].
  split; [simpl; intuition discriminate|]. split; [left; reflexivity|].
  exact (process_agent_packet_keylog_doubles (fun st _ _ _ _ => (st, None)) _ "ABCD1234"
           "TASK_CMD_JOB" 1 "keys" " -LogPath x" Ho ltac:(discriminate)
           ltac:(simpl; intuition discriminate) (or_introl eq_refl)).
Defined.

(** X12: a routing packet whose frames are all non-staging frames of
    sessions missing from [self.agents] gets one
    [ERROR: sessionID ... not in cache!] entry per frame, in order; the
    only effect is one warning per frame, and no handler runs. *)
Theorem handle_agent_data_unknown_sessions
    (dec : string -> string -> option string)
    (parse_routing : string -> string -> option (list Inbound.frame))
    (parse_results : string -> option (list Inbound.result_packet))
    (staging request : Store.state -> Inbound.frame -> Store.state * Store.pyres (option string))
    (opcode : Store.state -> string -> string -> Z -> string -> Store.state * option string)
    (st : Store.state) (stagingKey body : string) (update_lastseen : bool)
    (frames : list Inbound.frame) :
  (20 <= String.length body)%nat -> parse_routing stagingKey body = Some frames -> frames <> [] ->
  Forall (fun f => ~ In (Inbound.f_meta f) ["STAGE0"; "STAGE1"; "STAGE2"]
                   /\ Store.in_cache (Inbound.f_session_id f) st = false) frames ->
  Inbound.handle_agent_data dec parse_routing parse_results staging request opcode
    st stagingKey body update_lastseen
  = (fold_left (fun s f => Store.emit s ("[!] handle_agent_data(): sessionID "
                                         ++ Inbound.f_session_id f ++ " not present")) frames st,
     Store.PyVal (Some (map (fun f => ("", Some ("ERROR: sessionID " ++ Inbound.f_session_id f
                                                ++ " not in cache!"))) frames))).
Proof.
  intros Hl Hp Hne Hf. unfold Inbound.handle_agent_data.
  replace (String.length body <? 20)%nat with false by (symmetry; apply Nat.ltb_ge, Hl).
  rewrite Hp.
  match goal with
  | |- context [?go st _ []] => pose (GO := go)
  end.
  assert (G : forall fs s acc,
             Forall (fun f => ~ In (Inbound.f_meta f) ["STAGE0"; "STAGE1"; "STAGE2"]
                              /\ Store.in_cache (Inbound.f_session_id f) st = false) fs ->
             Store.cache s = Store.cache st ->
             GO s fs acc
             = (fold_left (fun s f => Store.emit s ("[!] handle_agent_data(): sessionID "
                              ++ Inbound.f_session_id f ++ " not present")) fs s,
                Store.PyVal (Some (rev acc ++ map (fun f => ("", Some ("ERROR: sessionID "
                              ++ Inbound.f_session_id f ++ " not in cache!")%string)) fs)%list))).
  { unfold GO. clear Hf Hne Hp.
    induction fs as [|f fs IH]; intros s acc HF Hc.
    - simpl. rewrite app_nil_r. reflexivity.
    - inversion HF as [|? ? [Hm Hi] HF']; subst.
      assert (Hm' : String.eqb (Inbound.f_meta f) "STAGE0" || String.eqb (Inbound.f_meta f) "STAGE1"
                    || String.eqb (Inbound.f_meta f) "STAGE2" = false).
      { destruct (String.eqb (Inbound.f_meta f) "STAGE0") eqn:E0;
          [apply String.eqb_eq in E0; exfalso; apply Hm; left; symmetry; exact E0|].
        destruct (String.eqb (Inbound.f_meta f) "STAGE1") eqn:E1;
          [apply String.eqb_eq in E1; exfalso; apply Hm; right; left; symmetry; exact E1|].
        destruct (String.eqb (Inbound.f_meta f) "STAGE2") eqn:E2;
          [apply String.eqb_eq in E2; exfalso; apply Hm; right; right; left; symmetry; exact E2|].
        reflexivity. }
      assert (Hi' : Store.in_cache (Inbound.f_session_id f) s = false).
      { unfold Store.in_cache in *. rewrite Hc. exact Hi. }
      simpl. rewrite Hm', Hi'. simpl.
      rewrite IH; [|exact HF'|exact Hc]. simpl. rewrite <- app_assoc. reflexivity. }
  destruct frames as [|f0 rest]; [contradiction|].
  exact (G (f0 :: rest) st [] Hf eq_refl).
Qed.

Lemma handle_agent_data_unknown_sessions_witness :
  (20 <= String.length "01234567890123456789")%nat
  /\ (fun _ _ : string => Some stray_frames) "stagingkey" "01234567890123456789" = Some stray_frames
  /\ stray_frames <> []
  /\ Forall (fun f => ~ In (Inbound.f_meta f) ["STAGE0"; "STAGE1"; "STAGE2"]
                      /\ Store.in_cache (Inbound.f_session_id f) state_abcd = false) stray_frames
  /\ Inbound.handle_agent_data (fun _ _ => None) (fun _ _ => Some stray_frames) (fun _ => None)
       (fun st _ => (st, Store.PyVal None)) (fun st _ => (st, Store.PyVal None))
       (fun st _ _ _ _ => (st, None)) state_abcd "stagingkey" "01234567890123456789" true
     = (Store.mk_state [("ABCD1234", "key")] [agent_abcd] [] [] []
          ["[!] handle_agent_data(): sessionID ZZZZ0000 not present";
           "[!] handle_agent_data(): sessionID YYYY0000 not present"] [],
        Store.PyVal (Some [("", Some "ERROR: sessionID ZZZZ0000 not in cache!");
                           ("", Some "ERROR: sessionID YYYY0000 not in cache!")])).
Proof.
  assert (HF : Forall (fun f => ~ In (Inbound.f_meta f) ["STAGE0"; "STAGE1"; "STAGE2"]
                      /\ Store.in_cache (Inbound.f_session_id f) state_abcd = false) stray_frames).
  { repeat constructor; simpl; intuition discriminate. }
  split; [vm_compute; lia|]. split; [reflexivity|]. split; [discriminate|].
  split; [exact HF|].
  exact (handle_agent_data_unknown_sessions (fun _ _ => None) (fun _ _ => Some stray_frames)
           (fun _ => None) (fun st _ => (st, Store.PyVal None)) (fun st _ => (st, Store.PyVal None))
           (fun st _ _ _ _ => (st, None)) state_abcd "stagingkey" "01234567890123456789" true
           stray_frames ltac:(vm_compute; lia) eq_refl ltac:(discriminate) HF).
Defined.

Section RenameFacts.
Import Store.

Lemma renamed_in (s : state) (k n : string) (x : agent_row) :
  In x (db_agents (commit (set_agents s (map (fun y => if String.eqb (a_session_id y) k
                                                      then Rename.with_name y n else y) (db_agents s))))) ->
  exists y, In y (db_agents s) /\ a_session_id x = a_session_id y
            /\ a_name x = (if String.eqb (a_session_id y) k then n else a_name y).
Proof.
  intros H. apply commit_in in H. destruct H as [x0 [Hin [Hid Hnm]]].
  cbn [db_agents set_agents] in Hin. apply in_map_iff in Hin. destruct Hin as [y [<- Hy]].
  exists y. split; [exact Hy|].
  destruct (String.eqb (a_session_id y) k); split; assumption.
Qed.

Lemma renamed_has (s : state) (k n : string) (y : agent_row) :
  In y (db_agents s) ->
  exists x, In x (db_agents (commit (set_agents s (map (fun y => if String.eqb (a_session_id y) k
                                                      then Rename.with_name y n else y) (db_agents s)))))
            /\ a_session_id x = a_session_id y
            /\ a_name x = (if String.eqb (a_session_id y) k then n else a_name y).
Proof.
  intros Hy. rewrite commit_eq. cbn [db_agents set_deleted set_pending set_agents].
  set (g := fun y : agent_row => if String.eqb (a_session_id y) k then Rename.with_name y n else y).
  exists (Queries.with_taskings (g y)
            (orm_taskings (set_agents s (map g (db_agents s))) (g y))).
  split.
  - apply in_map_iff. eexists. split; [reflexivity|]. apply in_map. exact Hy.
  - unfold g. destruct (String.eqb (a_session_id y) k); split; reflexivity.
Qed.

Lemma find_name_some (p : agent_row -> bool) (l : list agent_row) (n : string) :
  (forall x, In x l -> p x = true -> a_name x = n) -> (exists x, In x l /\ p x = true) ->
  option_map a_name (find p l) = Some n.
Proof.
  intros H [x [Hx Hp]]. destruct (find p l) as [y|] eqn:F.
  - apply find_some in F. simpl. f_equal. apply H; apply F.
  - rewrite (find_none _ _ F x Hx) in Hp. discriminate.
Qed.

End RenameFacts.

(** X13: renaming an agent twice, first from its session id [sid] to [n1]
    and then from [n1] to [n2], succeeds both times.  The first log line
    goes to [downloads/<n1>/agent.log].  The second is written through
    [save_agent_log(n1)], which no longer finds a row called [n1], so it
    lands in [downloads/None/agent.log]. *)
Theorem rename_agent_twice_logs_to_None (cwd installPath current_time : string)
    (isalnum path_exists : string -> bool) (st : Store.state) (files : list (string * string))
    (sid n1 n2 : string) (r : Store.agent_row) :
  Store.names_own st sid -> In r (Store.db_agents st) -> Store.a_name r = sid ->
  (forall x, In x (Store.db_agents st) -> Store.a_session_id x <> n1 /\ Store.a_name x <> n1) ->
  n1 <> n2 -> isalnum n1 = true -> isalnum n2 = true ->
  path_exists (installPath ++ "/downloads/" ++ n1 ++ "/") = false ->
  path_exists (installPath ++ "/downloads/" ++ n2 ++ "/") = false ->
  let '(st1, files1, ret1) :=
    Rename.rename_agent cwd installPath current_time isalnum path_exists st files sid n1 in
  let '(st2, files2, ret2) :=
    Rename.rename_agent cwd installPath current_time isalnum path_exists st1 files1 n1 n2 in
  ret1 = Store.PyVal true /\ ret2 = Store.PyVal true
  /\ (exists old, Files.file_get (PosixPath.abspath cwd (installPath ++ "/downloads/" ++ n1 ++ "//agent.log"))
                    files1
                  = Some (old ++ String "010" current_time ++ " : "
                          ++ String "010" (("[*] Agent renamed from " ++ sid ++ " to " ++ n1)
                                           ++ String "010" "")))
  /\ (exists old, Files.file_get (PosixPath.abspath cwd (installPath ++ "/downloads/None//agent.log"))
                    files2
                  = Some (old ++ String "010" current_time ++ " : "
                          ++ String "010" (("[*] Agent renamed from " ++ n1 ++ " to " ++ n2)
                                           ++ String "010" ""))).
Proof.
  intros Ho Hr Hrn Hfresh Hne Ha1 Ha2 Hp1 Hp2.
  (* first rename *)
  assert (F0 : exists r0, find (fun x => String.eqb (Store.a_name x) sid) (Store.db_agents st) = Some r0
                          /\ Store.a_session_id r0 = sid).
  { destruct (find _ (Store.db_agents st)) as [r0|] eqn:F.
    - exists r0. split; [reflexivity|]. apply find_some in F. destruct F as [Hin E].
      apply String.eqb_eq in E. exact (Ho r0 Hin E).
    - pose proof (find_none _ _ F r Hr) as N. simpl in N. rewrite Hrn, String.eqb_refl in N.
      discriminate. }
  destruct F0 as [r0 [F0 Hid0]].
  unfold Rename.rename_agent at 1. rewrite Ha1, Hp1. cbn [negb]. rewrite F0, Hid0. cbv zeta.
  set (st1 := Store.commit (Store.set_agents st (map (fun x => if String.eqb (Store.a_session_id x) sid
                  then Rename.with_name x n1 else x) (Store.db_agents st)))).
  set (files0 := if path_exists (installPath ++ "/downloads/" ++ sid ++ "/") then _ else files).
  assert (Hname1 : Queries.get_agent_name_db st1 sid = Some n1).
  { unfold Queries.get_agent_name_db. apply find_name_some.
    - intros x Hx Hp. destruct (renamed_in st sid n1 x Hx) as [y [Hy [Hid Hnm]]].
      rewrite Hnm. destruct (String.eqb (Store.a_session_id y) sid) eqn:E; [reflexivity|].
      exfalso. apply orb_true_iff in Hp. destruct Hp as [Hp|Hp]; apply String.eqb_eq in Hp.
      + rewrite Hid in Hp. rewrite Hp, String.eqb_refl in E. discriminate.
      + rewrite Hnm in Hp. rewrite (Ho y Hy Hp), String.eqb_refl in E. discriminate.
    - apply find_some in F0. destruct F0 as [Hin0 _].
      destruct (renamed_has st sid n1 r0 Hin0) as [x [Hx [Hid _]]].
      exists x. split; [exact Hx|]. rewrite Hid, Hid0, String.eqb_refl. reflexivity. }
  unfold AgentLog.save_agent_log at 1. rewrite Hname1.
  set (files1 := Files.file_put _ _ files0).
  (* second rename *)
  assert (F1 : exists r1, find (fun x => String.eqb (Store.a_name x) n1) (Store.db_agents st1) = Some r1
                          /\ Store.a_session_id r1 = sid).
  { destruct (find _ (Store.db_agents st1)) as [r1|] eqn:F.
    - exists r1. split; [reflexivity|]. apply find_some in F. destruct F as [Hin E].
      apply String.eqb_eq in E. destruct (renamed_in st sid n1 r1 Hin) as [y [Hy [Hid Hnm]]].
      rewrite Hid. destruct (String.eqb (Store.a_session_id y) sid) eqn:E2;
        [apply String.eqb_eq, E2|].
      exfalso. rewrite E in Hnm. exact (proj2 (Hfresh y Hy) (eq_sym Hnm)).
    - exfalso. apply find_some in F0. destruct F0 as [Hin0 _].
      destruct (renamed_has st sid n1 r0 Hin0) as [x [Hx [_ Hnm]]].
      rewrite Hid0, String.eqb_refl in Hnm.
      pose proof (find_none _ _ F x Hx) as N. simpl in N. rewrite Hnm, String.eqb_refl in N.
      discriminate. }
  destruct F1 as [r1 [F1 Hid1]].
  unfold Rename.rename_agent. rewrite Ha2, Hp2. cbn [negb]. rewrite F1, Hid1. cbv zeta.
  set (st2 := Store.commit (Store.set_agents st1 (map (fun x => if String.eqb (Store.a_session_id x) sid
                  then Rename.with_name x n2 else x) (Store.db_agents st1)))).
  set (files1' := if path_exists (installPath ++ "/downloads/" ++ n1 ++ "/") then _ else files1).
  assert (Hname2 : Queries.get_agent_name_db st2 n1 = None).
  { unfold Queries.get_agent_name_db. rewrite find_all_false; [reflexivity|].
    intros x Hx. destruct (renamed_in st1 sid n2 x Hx) as [y [Hy [Hid Hnm]]].
    destruct (renamed_in st sid n1 y Hy) as [z [Hz [Hidz Hnmz]]].
    destruct (Hfresh z Hz) as [Hz1 Hz2].
    apply orb_false_iff. split; apply String.eqb_neq.
    - rewrite Hid, Hidz. exact Hz1.
    - rewrite Hnm. destruct (String.eqb (Store.a_session_id y) sid) eqn:E;
        [intros H; exact (Hne (eq_sym H))|].
      rewrite Hnmz. rewrite Hidz in E. rewrite E. exact Hz2. }
  unfold AgentLog.save_agent_log. rewrite Hname2.
  split; [reflexivity|]. split; [reflexivity|]. split.
  - eexists. unfold files1. rewrite Hname1.
    replace ((installPath ++ "/downloads/" ++ n1 ++ "/") ++ "/agent.log")%string
      with (installPath ++ "/downloads/" ++ n1 ++ "//agent.log")%string
      by (rewrite !string_app_assoc; reflexivity).
    apply file_get_put.
  - eexists.
    replace ((installPath ++ "/downloads/" ++ "None" ++ "/") ++ "/agent.log")%string
      with (installPath ++ "/downloads/None//agent.log")%string
      by (rewrite string_app_assoc; reflexivity).
    apply file_get_put.
Qed.

Lemma rename_agent_twice_logs_to_None_witness :
  Store.names_own state_abcd "ABCD1234" /\ In agent_abcd (Store.db_agents state_abcd)
  /\ Store.a_name agent_abcd = "ABCD1234"
  /\ let '(st1, files1, ret1) :=
       Rename.rename_agent "/opt/empire" "/opt/empire" "2020-01-01 00:00:00" str_isalnum
         (fun _ => false) state_abcd [] "ABCD1234" "alpha" in
     let '(st2, files2, ret2) :=
       Rename.rename_agent "/opt/empire" "/opt/empire" "2020-01-01 00:00:00" str_isalnum
         (fun _ => false) st1 files1 "alpha" "beta" in
     ret1 = Store.PyVal true /\ ret2 = Store.PyVal true
     /\ (exists old, Files.file_get (PosixPath.abspath "/opt/empire" ("/opt/empire" ++ "/downloads/" ++ "alpha" ++ "//agent.log"))
                      files1
                    = Some (old ++ String "010" "2020-01-01 00:00:00" ++ " : "
                            ++ String "010" (("[*] Agent renamed from " ++ "ABCD1234" ++ " to " ++ "alpha")
                                             ++ String "010" "")))
     /\ (exists old, Files.file_get (PosixPath.abspath "/opt/empire" ("/opt/empire" ++ "/downloads/None//agent.log"))
                      files2
                    = Some (old ++ String "010" "2020-01-01 00:00:00" ++ " : "
                            ++ String "010" (("[*] Agent renamed from " ++ "alpha" ++ " to " ++ "beta")
                                             ++ String "010" ""))).
Proof.
  split; [exact names_own_abcd|]. split; [left; reflexivity|]. split; [reflexivity|].
  apply (rename_agent_twice_logs_to_None "/opt/empire" "/opt/empire" "2020-01-01 00:00:00"
           str_isalnum (fun _ => false) state_abcd [] "ABCD1234" "alpha" "beta" agent_abcd);
    [exact names_own_abcd | left; reflexivity | reflexivity
    | intros x [<-|[]]; split; discriminate
    | discriminate | reflexivity | reflexivity | reflexivity | reflexivity].
Defined.
